(** * ALPHAFUSION: top-N rankers of [utils_topn.py]

    A shallow embedding of [get_top_n_by_history] and [get_top_n_by_news]
    and of the pandas operations they call, followed by the properties of
    the two rankers.

    Conventions of the embedding.
    - A cell is missing ([VNull], pandas NA/None), an integer or a string.
      A missing cell is the absence of a value: pandas' [groupby] puts such
      rows in no group and [nunique] does not count it.
    - A frame has a list of column labels and a list of rows; a row is the
      list of its cells, aligned with the labels.  A label is resolved to
      its first position, so a row is a mapping from label to cell; the
      frames meant are those whose labels are distinct.
    - Frames live in a store and are passed by reference, as Python objects
      are; [copy] and boolean selection allocate a new frame.
    - A Series is the ordered list of its (index label, value) pairs.
    - Integer measures are in [Z]: the counts are far from the limits of the
      machine integers pandas stores them in.  The sum of a count column is
      the exact sum of its integer cells; the properties that speak of sums
      speak of the totals as computed, not of their arithmetic.
    - [sort_values] is called with pandas' default sort kind, which promises
      a sorted permutation and nothing about ties; the embedding takes the
      sort as a [sorter], any function with that contract. *)

From Stdlib Require Import List ZArith String Ascii Bool Lia Arith.
From Stdlib Require Import Permutation Sorted RelationClasses OrdersEx.
Import ListNotations.
Local Open Scope string_scope.
Local Open Scope Z_scope.

(** ** Cells *)

Inductive value : Type :=
| VNull
| VInt (z : Z)
| VStr (s : string).

Definition value_eqb (a b : value) : bool :=
  match a, b with
  | VNull, VNull => true
  | VInt x, VInt y => Z.eqb x y
  | VStr x, VStr y => String.eqb x y
  | _, _ => false
  end.

Definition notnull (v : value) : bool :=
  match v with VNull => false | _ => true end.

(** Order of group labels: [groupby] sorts its keys (sort=True); numbers
    come before strings, numbers by size, strings by character codes. *)
Definition value_compare (a b : value) : comparison :=
  match a, b with
  | VNull, VNull => Eq
  | VNull, _ => Lt
  | _, VNull => Gt
  | VInt x, VInt y => Z.compare x y
  | VInt _, VStr _ => Lt
  | VStr _, VInt _ => Gt
  | VStr x, VStr y => String_as_OT.compare x y
  end.

Definition value_leb (a b : value) : bool :=
  match value_compare a b with Gt => false | _ => true end.

Definition value_lt (a b : value) : Prop := value_compare a b = Lt.

(** ** Frames and Series *)

Record DataFrame : Type := mkFrame {
  columns : list string;
  rows : list (list value)
}.

Definition Series : Type := list (value * Z).

(** [c in df.columns] *)
Definition has_column (c : string) (df : DataFrame) : bool :=
  existsb (String.eqb c) (columns df).

Fixpoint column_pos (c : string) (cols : list string) : option nat :=
  match cols with
  | [] => None
  | c' :: cols' =>
      if String.eqb c c' then Some O
      else option_map S (column_pos c cols')
  end.

(** The cell of row [r] under label [c]. *)
Definition cell (df : DataFrame) (c : string) (r : list value) : value :=
  match column_pos c (columns df) with
  | Some i => nth i r VNull
  | None => VNull
  end.

(** [df[c]]: the column as the list of its cells, in row order. *)
Definition column (df : DataFrame) (c : string) : list value :=
  map (cell df c) (rows df).

(** ** Grouping *)

Definition isin (v : value) (l : list value) : bool :=
  existsb (value_eqb v) l.

(** Distinct elements, each at its first occurrence. *)
Fixpoint dedup (l : list value) : list value :=
  match l with
  | [] => []
  | v :: l' => v :: filter (fun w => negb (value_eqb w v)) (dedup l')
  end.

Fixpoint insert_key (k : value) (l : list value) : list value :=
  match l with
  | [] => [k]
  | k' :: l' => if value_leb k k' then k :: l else k' :: insert_key k l'
  end.

Fixpoint sort_keys (l : list value) : list value :=
  match l with
  | [] => []
  | k :: l' => insert_key k (sort_keys l')
  end.

(** The non-missing key cells in the order the rows first show them. *)
Definition first_seen_keys (df : DataFrame) (tc : string) : list value :=
  dedup (filter notnull (column df tc)).

(** The groups of [df.groupby(tc)]: rows with a missing key are dropped
    (dropna=True) and the labels are sorted (sort=True). *)
Definition group_keys (df : DataFrame) (tc : string) : list value :=
  sort_keys (first_seen_keys df tc).

(** The rows of group [k], in row order. *)
Definition group_rows (df : DataFrame) (tc : string) (k : value)
  : list (list value) :=
  filter (fun r => value_eqb (cell df tc r) k) (rows df).

(** ** Aggregations *)

(** [nunique()]: distinct non-missing values (dropna=True). *)
Definition nunique (cells : list value) : Z :=
  Z.of_nat (List.length (dedup (filter notnull cells))).

(** [sum()] of a numeric column: missing cells are skipped. *)
Definition num (v : value) : Z :=
  match v with VInt z => z | _ => 0 end.

Definition sum_cells (cells : list value) : Z :=
  fold_right (fun v acc => num v + acc) 0 cells.

Definition is_numeric (v : value) : bool :=
  match v with VStr _ => false | _ => true end.

Definition numeric_column (df : DataFrame) (c : string) : bool :=
  forallb is_numeric (column df c).

Definition aggregate (df : DataFrame) (tc : string)
  (f : list (list value) -> Z) : Series :=
  map (fun k => (k, f (group_rows df tc k))) (group_keys df tc).

(** [df.groupby(tc)[dc].nunique()] *)
Definition groupby_nunique (df : DataFrame) (tc dc : string) : Series :=
  aggregate df tc (fun g => nunique (map (cell df dc) g)).

(** [df.groupby(tc).size()] *)
Definition groupby_size (df : DataFrame) (tc : string) : Series :=
  aggregate df tc (fun g => Z.of_nat (List.length g)).

(** [df.groupby(tc)[c].sum()] on a numeric column. *)
Definition groupby_sum (df : DataFrame) (tc c : string) : Series :=
  aggregate df tc (fun g => sum_cells (map (cell df c) g)).

(** ** Series operations *)

Definition index_tolist (s : Series) : list value := map fst s.

(** [head(n)] is [iloc[:n]]: the first [n] entries, and for a negative [n]
    all entries but the last [-n]. *)
Definition head (n : Z) (s : Series) : Series :=
  if 0 <=? n then firstn (Z.to_nat n) s
  else firstn (List.length s - Z.to_nat (- n))%nat s.

Fixpoint get (k : value) (s : Series) : option Z :=
  match s with
  | [] => None
  | (k', m) :: s' => if value_eqb k' k then Some m else get k s'
  end.

Definition descending (s : Series) : Prop :=
  StronglySorted (fun a b => snd b <= snd a) s.

(** [sort_values(ascending=False)]: the contract of the sort. *)
Record sorter : Type := mkSorter {
  sort_desc :> Series -> Series;
  sort_desc_perm : forall s, Permutation (sort_desc s) s;
  sort_desc_sorted : forall s, descending (sort_desc s)
}.

(** A sort is stable when entries of equal measure keep their order. *)
Definition stable (S : sorter) : Prop :=
  forall (s : Series) (m : Z),
    filter (fun e => snd e =? m) (S s) = filter (fun e => snd e =? m) s.

(** Boolean selection [df[mask]]: the rows whose mask entry is true. *)
Fixpoint select_rows (mask : list bool) (rs : list (list value))
  : list (list value) :=
  match mask, rs with
  | b :: mask', r :: rs' =>
      if b then r :: select_rows mask' rs' else select_rows mask' rs'
  | _, _ => []
  end.

(** [df[tc].isin(top)]: one boolean per row. *)
Definition isin_mask (df : DataFrame) (tc : string) (top : list value)
  : list bool :=
  map (fun v => isin v top) (column df tc).

(** ** Exceptions, the store and the monad of the rankers *)

Inductive exn : Type :=
| KeyError (msg : string)       (* the rankers' own [raise KeyError(...)] *)
| LabelNotFound (k : value)     (* [Series.loc] on a label not in the index *)
| InvalidReference (l : nat)    (* a reference to no frame of the store *)
| TypeError                     (* [sum()] adding a number and a string *)
| Unsupported (c : string).     (* [sum()] of a column whose groups hold
                                   strings only: the totals are strings,
                                   which the embedding does not follow *)

Inductive outcome (A : Type) : Type :=
| Ok (a : A)
| Raise (e : exn).

Arguments Ok {A} a.
Arguments Raise {A} e.

Definition ref : Type := nat.
Definition store : Type := list DataFrame.

Definition M (A : Type) : Type := store -> outcome A * store.

Definition ret {A : Type} (a : A) : M A := fun h => (Ok a, h).

Definition bind {A B : Type} (m : M A) (k : A -> M B) : M B :=
  fun h =>
    match m h with
    | (Ok a, h') => k a h'
    | (Raise e, h') => (Raise e, h')
    end.

Definition raise {A : Type} (e : exn) : M A := fun h => (Raise e, h).

Definition lift {A : Type} (o : outcome A) : M A := fun h => (o, h).

Notation "x <- m ;; k" := (bind m (fun x => k))
  (at level 61, m at next level, right associativity).

(** Dereference a frame. *)
Definition read (l : ref) : M DataFrame :=
  fun h =>
    match nth_error h l with
    | Some df => (Ok df, h)
    | None => (Raise (InvalidReference l), h)
    end.

(** A new frame object; its reference is the next free one. *)
Definition alloc (df : DataFrame) : M ref :=
  fun h => (Ok (List.length h), (h ++ [df])%list).

(** An assignment into the frame at [l] (what a caller may do with a frame
    it holds); a reference to no frame is left alone. *)
Fixpoint write (l : ref) (df : DataFrame) (h : store) : store :=
  match h, l with
  | [], _ => []
  | _ :: h', O => df :: h'
  | d :: h', S l' => d :: write l' df h'
  end.

(** [df.copy()]: a new object with the same labels and rows. *)
Definition copy (l : ref) : M ref :=
  df <- read l ;; alloc df.

(** [df[mask]]: a new object holding the selected rows. *)
Definition getitem_mask (l : ref) (mask : list bool) : M ref :=
  df <- read l ;; alloc (mkFrame (columns df) (select_rows mask (rows df))).

(** [s.loc[labels]]: the entries of [s] at [labels], in the order of
    [labels]; a label that is not in the index raises. *)
Fixpoint loc (s : Series) (labels : list value) : outcome Series :=
  match labels with
  | [] => Ok []
  | k :: labels' =>
      match get k s with
      | None => Raise (LabelNotFound k)
      | Some m =>
          match loc s labels' with
          | Ok t => Ok ((k, m) :: t)
          | Raise e => Raise e
          end
      end
  end.

Definition is_int (v : value) : bool :=
  match v with VInt _ => true | _ => false end.

Definition is_str (v : value) : bool :=
  match v with VStr _ => true | _ => false end.

(** Cells that cannot be added up: a number and a string among them. *)
Definition mixed_cells (cells : list value) : bool :=
  existsb is_int cells && existsb is_str cells.

(** [groupby(tc)[c].sum()]: the sums of a numeric column; a group that
    holds a number and a string makes the addition raise. *)
Definition sum_by (df : DataFrame) (tc c : string) : outcome Series :=
  if numeric_column df c then Ok (groupby_sum df tc c)
  else if existsb (fun k => mixed_cells (map (cell df c) (group_rows df tc k)))
            (group_keys df tc)
  then Raise TypeError
  else Raise (Unsupported c).

(** ** The rankers *)

Definition missing_column_message (ticker_col : string) : string :=
  ("ticker_col '" ++ ticker_col ++ "' not found in DataFrame columns")%string.

(** Lines 17-20: the measure of [get_top_n_by_history]. *)
Definition history_counts (df : DataFrame) (ticker_col date_col : string)
  : Series :=
  if has_column date_col df then groupby_nunique df ticker_col date_col
  else groupby_size df ticker_col.

Definition get_top_n_by_history (S : sorter) (df : ref)
  (ticker_col date_col : string) (n : Z) : M (ref * list value) :=
  fr <- read df ;;
  if negb (has_column ticker_col fr) then                    (* line 15 *)
    raise (KeyError (missing_column_message ticker_col))     (* line 16 *)
  else
    let counts := history_counts fr ticker_col date_col in   (* 17-20 *)
    if n =? -1 then                                          (* line 22 *)
      let top_tickers := index_tolist (S counts) in          (* line 23 *)
      subset <- copy df ;;                                   (* line 24 *)
      ret (subset, top_tickers)                              (* line 25 *)
    else
      let top_tickers := index_tolist (head n (S counts)) in (* line 26 *)
      selected <-
        getitem_mask df (isin_mask fr ticker_col top_tickers) ;;
      subset <- copy selected ;;                             (* line 27 *)
      ret (subset, top_tickers).                             (* line 28 *)

(** Truth value of [news_count_col] in a condition: [None] and the empty
    string are false. *)
Definition truthy (news_count_col : option string) : bool :=
  match news_count_col with
  | Some c => negb (String.eqb c "")
  | None => false
  end.

Definition name_of (news_count_col : option string) : string :=
  match news_count_col with Some c => c | None => "" end.

(** Lines 41-46: the measure of [get_top_n_by_news]. *)
Definition news_totals (df : DataFrame) (ticker_col : string)
  (news_count_col : option string) : outcome Series :=
  if truthy news_count_col && has_column (name_of news_count_col) df then
    sum_by df ticker_col (name_of news_count_col)
  else if has_column "news_count" df then
    sum_by df ticker_col "news_count"
  else
    Ok (groupby_size df ticker_col).

Definition get_top_n_by_news (S : sorter) (news_df : ref)
  (ticker_col : string) (news_count_col : option string) (n : Z)
  : M (ref * list value * Series) :=
  fr <- read news_df ;;
  if negb (has_column ticker_col fr) then                    (* line 39 *)
    raise (KeyError (missing_column_message ticker_col))     (* line 40 *)
  else
    totals <- lift (news_totals fr ticker_col news_count_col) ;; (* 41-46 *)
    if n =? -1 then                                          (* line 48 *)
      let top_tickers := index_tolist (S totals) in          (* line 49 *)
      subset <- copy news_df ;;                              (* line 50 *)
      top_totals <- lift (loc totals top_tickers) ;;         (* line 51 *)
      ret (subset, top_tickers, top_totals)
    else
      let top_tickers := index_tolist (head n (S totals)) in (* line 52 *)
      selected <-
        getitem_mask news_df (isin_mask fr ticker_col top_tickers) ;;
      subset <- copy selected ;;                             (* line 53 *)
      top_totals <- lift (loc totals top_tickers) ;;         (* line 55 *)
      ret (subset, top_tickers, top_totals).

(** ** What a caller sees *)

(** The call on a store that holds the frame [d] alone, with the returned
    reference read back. *)
Definition rank_by_history (S : sorter) (d : DataFrame)
  (ticker_col date_col : string) (n : Z)
  : outcome (DataFrame * list value) :=
  match get_top_n_by_history S O ticker_col date_col n [d] with
  | (Ok (l, top), h) =>
      match nth_error h l with
      | Some sub => Ok (sub, top)
      | None => Raise (InvalidReference l)
      end
  | (Raise e, _) => Raise e
  end.

Definition rank_by_news (S : sorter) (d : DataFrame)
  (ticker_col : string) (news_count_col : option string) (n : Z)
  : outcome (DataFrame * list value * Series) :=
  match get_top_n_by_news S O ticker_col news_count_col n [d] with
  | (Ok (l, top, tot), h) =>
      match nth_error h l with
      | Some sub => Ok (sub, top, tot)
      | None => Raise (InvalidReference l)
      end
  | (Raise e, _) => Raise e
  end.

(** The rows of [d] whose key is in [top], in row order. *)
Definition rows_in (d : DataFrame) (tc : string) (top : list value)
  : DataFrame :=
  mkFrame (columns d) (filter (fun r => isin (cell d tc r) top) (rows d)).

(** ** A stable sort *)

Fixpoint insert_desc (e : value * Z) (s : Series) : Series :=
  match s with
  | [] => [e]
  | e' :: s' =>
      if snd e' <=? snd e then e :: s else e' :: insert_desc e s'
  end.

Fixpoint isort_desc (s : Series) : Series :=
  match s with
  | [] => []
  | e :: s' => insert_desc e (isort_desc s')
  end.

(** The insertion sort as a [sorter]: it returns a permutation, in
    descending order of measure. *)
Definition stable_sorter : sorter.
Proof.
  assert (Hperm : forall e s, Permutation (insert_desc e s) (e :: s)).
  { intros e s. induction s as [|e' s IH]; simpl; [reflexivity|].
    destruct (snd e' <=? snd e); [reflexivity|].
    rewrite IH. apply perm_swap. }
  refine (mkSorter isort_desc _ _).
  - intros s. induction s as [|e s IH]; simpl; [constructor|].
    rewrite Hperm. now constructor.
  - intros s. unfold descending.
    induction s as [|e s IH]; simpl; [constructor|].
    revert IH. generalize (isort_desc s) as t. clear s.
    induction t as [|e' t IHt]; simpl; intros Ht.
    + repeat constructor.
    + inversion Ht as [|? ? Ht' Hall]; subst.
      destruct (Z.leb_spec (snd e') (snd e)) as [Hle|Hgt].
      * constructor; [assumption|].
        constructor; [assumption|].
        eapply Forall_impl; [|exact Hall]. simpl. intros; lia.
      * constructor; [now apply IHt|].
        eapply Permutation_Forall.
        -- symmetry. apply Hperm.
        -- constructor; [lia|assumption].
Defined.

(** ** The selection and the statements of the properties *)

(** The ranked labels the rankers keep: all of them for [n = -1], the
    ones [head(n)] keeps otherwise. *)
Definition top_of (S : sorter) (n : Z) (s : Series) : list value :=
  if n =? -1 then index_tolist (S s) else index_tolist (head n (S s)).

(** The subset the rankers build: the frame itself for [n = -1], the
    selected rows otherwise. *)
Definition subset_of (d : DataFrame) (tc : string) (n : Z)
  (top : list value) : DataFrame :=
  if n =? -1 then d else rows_in d tc top.

(** What a run may do to the store: keep every frame that was there, and
    hand out only references that were not. *)
Definition grows {A : Type} (ref_of : A -> ref) (h : store)
  (r : outcome A * store) : Prop :=
  (forall l, (l < List.length h)%nat -> nth_error (snd r) l = nth_error h l)
  /\ (forall a, fst r = Ok a ->
        (List.length h <= ref_of a)%nat
        /\ (ref_of a < List.length (snd r))%nat
        /\ forall l d',
             (l < List.length h)%nat ->
             nth_error (write (ref_of a) d' (snd r)) l = nth_error h l).

(** What C3 asks of a key list [top] returned for [n >= 0]. *)
Definition top_n_ok (d : DataFrame) (tc : string) (n : Z)
  (top : list value) : Prop :=
  (forall l, NoDup l ->
     (forall k, In k l <-> k <> VNull /\ In k (column d tc)) ->
     List.length top = Nat.min (Z.to_nat n) (List.length l))
  /\ NoDup top
  /\ (forall l, NoDup l ->
        (forall k, In k l <-> k <> VNull /\ In k (column d tc)) ->
        Z.of_nat (List.length l) <= n ->
        Permutation top l).

(** [top] is the ranking of [s] without its last [-n] entries. *)
Definition drops_lowest (s : Series) (n : Z) (top : list value) : Prop :=
  exists (ranked : Series) (dropped : list value),
    Permutation ranked s
    /\ descending ranked
    /\ index_tolist ranked = (top ++ dropped)%list
    /\ List.length dropped = Nat.min (Z.to_nat (- n)) (List.length s)
    /\ (Z.of_nat (List.length s) <= - n -> top = []).

(** [news_count_col] names a column to sum: it is given, it is not the
    empty string, and the frame has the column. *)
Definition names_column (d : DataFrame) (ncc : option string)
  (c : string) : Prop :=
  ncc = Some c /\ c <> "" /\ In c (columns d).

(** The column the news ranker sums, if it sums one, holds numbers and
    missing cells only. *)
Definition summed_column_numeric (d : DataFrame) (ncc : option string)
  : Prop :=
  (forall c, names_column d ncc c -> numeric_column d c = true)
  /\ ((forall c, ~ names_column d ncc c) ->
      In "news_count" (columns d) ->
      numeric_column d "news_count" = true).

(** The entries the rankers keep of the ranking. *)
Definition kept (S : sorter) (n : Z) (s : Series) : Series :=
  if n =? -1 then S s else head n (S s).

(** [top], with the measures [s] gives its keys, is in descending order
    of measure; and under a stable sort the keys of each measure are the
    first ones of that measure in the enumeration [s], in its order. *)
Definition ranked_by (S : sorter) (s : Series) (top : list value) : Prop :=
  exists ms : Series,
    index_tolist ms = top
    /\ incl ms s
    /\ descending ms
    /\ (stable S ->
        forall m, exists rest,
          filter (fun e => snd e =? m) s
          = (filter (fun e => snd e =? m) ms ++ rest)%list).

(** ** Frames for the examples *)

(** Tickers A (3 dates), B (5 dates, one repeated) and C (1 date); one row
    without ticker and one row of A without date. *)
Definition prices : DataFrame :=
  mkFrame ["ticker"; "date"]
    [ [VStr "A"; VInt 1]; [VStr "B"; VInt 1]; [VStr "A"; VInt 2];
      [VStr "B"; VInt 2]; [VStr "B"; VInt 3]; [VStr "C"; VInt 1];
      [VStr "A"; VInt 3]; [VStr "B"; VInt 4]; [VStr "B"; VInt 5];
      [VStr "B"; VInt 5]; [VNull; VInt 7]; [VStr "A"; VNull] ].

(** News per ticker, with a count column and a column whose label is the
    empty string. *)
Definition news : DataFrame :=
  mkFrame ["ticker"; "news_count"; ""; "hits"]
    [ [VStr "P"; VInt 4; VInt 100; VInt 1];
      [VStr "Q"; VInt 20; VInt 1; VInt 1];
      [VStr "P"; VInt 6; VInt 100; VInt 1] ].

(** One ticker whose count column holds a number and a string. *)
Definition mixed_news : DataFrame :=
  mkFrame ["ticker"; "news_count"]
    [ [VStr "A"; VInt 1]; [VStr "A"; VStr "x"] ].

(** Two tickers with one row each, B first. *)
Definition b_then_a : DataFrame :=
  mkFrame ["ticker"] [ [VStr "B"]; [VStr "A"] ].

(** The same two rows, A first. *)
Definition a_then_b : DataFrame :=
  mkFrame ["ticker"] [ [VStr "A"]; [VStr "B"] ].

(** ** Notions for the further properties *)

(** The sum of the values of a Series. *)
Definition series_total (s : Series) : Z :=
  fold_right (fun e acc => snd e + acc) 0 s.

(** The rows of [d] that have a key. *)
Definition keyed_rows (d : DataFrame) (tc : string) : list (list value) :=
  filter (fun r => notnull (cell d tc r)) (rows d).

(** [d'] holds the rows of [d] in some other order, under the same
    labels. *)
Definition reordered (d d' : DataFrame) : Prop :=
  columns d' = columns d /\ Permutation (rows d') (rows d).

(** What X5 says of a returned pair. *)
Definition keys_live_in (d sub : DataFrame) (tc : string)
  (top : list value) : Prop :=
  columns sub = columns d
  /\ incl (rows sub) (rows d)
  /\ forall k, In k top ->
       k <> VNull /\ exists r, In r (rows sub) /\ cell d tc r = k.

(** The sum of a per-row weight over some rows. *)
Definition total_weight (w : list value -> Z) (rs : list (list value))
  : Z :=
  fold_right (fun r acc => w r + acc) 0 rs.

(** What one row adds to the measure of the news ranker: its cell in the
    column that is summed (nothing when the cell is missing), or 1 when
    rows are counted. *)
Definition news_weight (d : DataFrame) (ncc : option string)
  (r : list value) : Z :=
  if truthy ncc && has_column (name_of ncc) d then
    num (cell d (name_of ncc) r)
  else if has_column "news_count" d then num (cell d "news_count" r)
  else 1.

(** The rows of [prices] from the last to the first. *)
Definition reversed_prices : DataFrame :=
  mkFrame (columns prices) (rev (rows prices)).

(** * Properties *)

(** ** The insertion sort is stable *)

Lemma insert_desc_ties (e : value * Z) (s : Series) (m : Z) :
  filter (fun x => snd x =? m) (insert_desc e s)
  = filter (fun x => snd x =? m) (e :: s).
Proof.
  induction s as [|e' s IH]; [reflexivity|].
  simpl insert_desc.
  destruct (Z.leb_spec (snd e') (snd e)) as [Hle|Hgt]; [reflexivity|].
  change (filter (fun x => snd x =? m) (e' :: insert_desc e s))
    with (if snd e' =? m then e' :: filter (fun x => snd x =? m) (insert_desc e s)
          else filter (fun x => snd x =? m) (insert_desc e s)).
  rewrite IH. simpl.
  destruct (Z.eqb_spec (snd e') m), (Z.eqb_spec (snd e) m);
    try reflexivity; lia.
Qed.

Lemma isort_desc_ties (s : Series) (m : Z) :
  filter (fun x => snd x =? m) (isort_desc s)
  = filter (fun x => snd x =? m) s.
Proof.
  induction s as [|e s IH]; [reflexivity|].
  simpl isort_desc. rewrite insert_desc_ties. simpl. now rewrite IH.
Qed.

Lemma stable_sorter_stable : stable stable_sorter.
Proof. intros s m. apply isort_desc_ties. Qed.

(** ** Cells, labels and grouping *)

Lemma value_eqb_eq (a b : value) : value_eqb a b = true <-> a = b.
Proof.
  destruct a, b; simpl; split; intros H;
    try discriminate; try reflexivity.
  - apply Z.eqb_eq in H. now subst.
  - injection H as ->. apply Z.eqb_refl.
  - apply String.eqb_eq in H. now subst.
  - injection H as ->. apply String.eqb_refl.
Qed.

Lemma value_eqb_refl (a : value) : value_eqb a a = true.
Proof. now apply value_eqb_eq. Qed.

Lemma value_eqb_neq (a b : value) : value_eqb a b = false <-> a <> b.
Proof.
  split.
  - intros H E. apply value_eqb_eq in E. congruence.
  - intros H. destruct (value_eqb a b) eqn:E; [|reflexivity].
    apply value_eqb_eq in E. contradiction.
Qed.

Lemma notnull_true (v : value) : notnull v = true <-> v <> VNull.
Proof. destruct v; simpl; split; congruence. Qed.

Lemma has_column_In (c : string) (d : DataFrame) :
  has_column c d = true <-> In c (columns d).
Proof.
  unfold has_column. rewrite existsb_exists. split.
  - intros [x [Hx E]]. apply String.eqb_eq in E. now subst.
  - intros H. exists c. split; [assumption|apply String.eqb_refl].
Qed.

Lemma isin_In (v : value) (l : list value) : isin v l = true <-> In v l.
Proof.
  unfold isin. rewrite existsb_exists. split.
  - intros [x [Hx E]]. apply value_eqb_eq in E. now subst.
  - intros H. exists v. split; [assumption|apply value_eqb_refl].
Qed.

Lemma dedup_In (v : value) (l : list value) : In v (dedup l) <-> In v l.
Proof.
  induction l as [|w l IH]; simpl; [tauto|].
  rewrite filter_In, IH, negb_true_iff, value_eqb_neq.
  destruct (value_eqb v w) eqn:E.
  - apply value_eqb_eq in E. subst. tauto.
  - apply value_eqb_neq in E. split; intros [H|H]; auto; tauto.
Qed.

Lemma dedup_NoDup (l : list value) : NoDup (dedup l).
Proof.
  induction l as [|w l IH]; simpl; constructor.
  - rewrite filter_In, negb_true_iff, value_eqb_neq. tauto.
  - now apply NoDup_filter.
Qed.

Lemma insert_key_perm (k : value) (l : list value) :
  Permutation (insert_key k l) (k :: l).
Proof.
  induction l as [|k' l IH]; simpl; [reflexivity|].
  destruct (value_leb k k'); [reflexivity|].
  rewrite IH. apply perm_swap.
Qed.

Lemma sort_keys_perm (l : list value) : Permutation (sort_keys l) l.
Proof.
  induction l as [|k l IH]; simpl; [constructor|].
  rewrite insert_key_perm. now constructor.
Qed.

Lemma group_keys_perm (d : DataFrame) (tc : string) :
  Permutation (group_keys d tc) (first_seen_keys d tc).
Proof. apply sort_keys_perm. Qed.

Lemma first_seen_keys_In (d : DataFrame) (tc : string) (k : value) :
  In k (first_seen_keys d tc) <-> k <> VNull /\ In k (column d tc).
Proof.
  unfold first_seen_keys.
  rewrite dedup_In, filter_In, notnull_true. tauto.
Qed.

Lemma group_keys_In (d : DataFrame) (tc : string) (k : value) :
  In k (group_keys d tc) <-> k <> VNull /\ In k (column d tc).
Proof.
  rewrite <- first_seen_keys_In. split; apply Permutation_in;
    [|symmetry]; apply group_keys_perm.
Qed.

Lemma group_keys_NoDup (d : DataFrame) (tc : string) :
  NoDup (group_keys d tc).
Proof.
  eapply Permutation_NoDup.
  - symmetry. apply group_keys_perm.
  - apply dedup_NoDup.
Qed.

(** Any duplicate-free enumeration of the non-missing key cells has as
    many entries as there are groups. *)
Lemma group_count (d : DataFrame) (tc : string) (l : list value) :
  NoDup l ->
  (forall k, In k l <-> k <> VNull /\ In k (column d tc)) ->
  List.length l = List.length (group_keys d tc).
Proof.
  intros Hl Hin. apply Permutation_length.
  apply NoDup_Permutation; [assumption|apply group_keys_NoDup|].
  intros k. now rewrite Hin, group_keys_In.
Qed.

Lemma aggregate_index (d : DataFrame) (tc : string)
  (f : list (list value) -> Z) :
  index_tolist (aggregate d tc f) = group_keys d tc.
Proof.
  unfold index_tolist, aggregate. rewrite map_map. simpl. apply map_id.
Qed.

Lemma get_map (f : value -> Z) (l : list value) (k : value) :
  In k l -> get k (map (fun x => (x, f x)) l) = Some (f k).
Proof.
  induction l as [|x l IH]; simpl; [tauto|].
  intros H. destruct (value_eqb x k) eqn:E.
  - apply value_eqb_eq in E. now subst.
  - apply value_eqb_neq in E. destruct H as [H|H]; [contradiction|auto].
Qed.

Lemma aggregate_get (d : DataFrame) (tc : string)
  (f : list (list value) -> Z) (k : value) :
  In k (group_keys d tc) ->
  get k (aggregate d tc f) = Some (f (group_rows d tc k)).
Proof.
  intros H. unfold aggregate.
  now rewrite (get_map (fun k => f (group_rows d tc k))).
Qed.

Lemma get_In (k : value) (s : Series) :
  In k (index_tolist s) -> exists m, get k s = Some m /\ In (k, m) s.
Proof.
  induction s as [|[k' m'] s IH]; simpl; [tauto|].
  intros H. destruct (value_eqb k' k) eqn:E.
  - apply value_eqb_eq in E. subst. eauto.
  - apply value_eqb_neq in E. destruct H as [H|H]; [contradiction|].
    destruct (IH H) as [m [Hg Hi]]. eauto.
Qed.

Lemma select_rows_isin (d : DataFrame) (tc : string) (top : list value)
  (rs : list (list value)) :
  select_rows (map (fun v => isin v top) (map (cell d tc) rs)) rs
  = filter (fun r => isin (cell d tc r) top) rs.
Proof.
  induction rs as [|r rs IH]; simpl; [reflexivity|].
  rewrite IH. reflexivity.
Qed.

(** ** Running the rankers *)

Lemma nth_error_snoc (h : store) (d : DataFrame) :
  nth_error (h ++ [d]) (List.length h) = Some d.
Proof.
  rewrite nth_error_app2 by lia. now rewrite Nat.sub_diag.
Qed.

Lemma nth_error_old (h h' : store) (l : ref) :
  (l < List.length h)%nat -> nth_error (h ++ h') l = nth_error h l.
Proof. intros H. now apply nth_error_app1. Qed.

Lemma getitem_isin_run (h : store) (l : ref) (d : DataFrame)
  (tc : string) (top : list value) :
  nth_error h l = Some d ->
  getitem_mask l (isin_mask d tc top) h
  = (Ok (List.length h), h ++ [rows_in d tc top])%list.
Proof.
  intros H. unfold getitem_mask, bind, read, alloc. rewrite H.
  unfold isin_mask, column, rows_in. now rewrite select_rows_isin.
Qed.

Lemma copy_run (h : store) (l : ref) (d : DataFrame) :
  nth_error h l = Some d ->
  copy l h = (Ok (List.length h), h ++ [d])%list.
Proof.
  intros H. unfold copy, bind, read, alloc. now rewrite H.
Qed.

(** The history ranker on any store. *)
Lemma history_run (S : sorter) (h : store) (df : ref) (d : DataFrame)
  (tc dc : string) (n : Z) :
  nth_error h df = Some d ->
  get_top_n_by_history S df tc dc n h =
    if has_column tc d then
      let top := top_of S n (history_counts d tc dc) in
      if n =? -1 then (Ok (List.length h, top), h ++ [d])%list
      else (Ok (Datatypes.S (List.length h), top),
            h ++ [rows_in d tc top] ++ [rows_in d tc top])%list
    else (Raise (KeyError (missing_column_message tc)), h).
Proof.
  intros H. unfold get_top_n_by_history, top_of.
  unfold bind at 1. unfold read at 1. rewrite H.
  destruct (has_column tc d); simpl; [|reflexivity].
  destruct (n =? -1).
  - unfold bind. rewrite (@copy_run _ _ _ H). reflexivity.
  - unfold bind. rewrite (@getitem_isin_run _ _ _ _ _ H).
    rewrite (@copy_run _ _ _ (nth_error_snoc h _)).
    unfold ret. rewrite length_app, <- app_assoc. simpl.
    now rewrite Nat.add_1_r.
Qed.

(** [loc] on labels of the index: the entries come back in the order of
    the labels. *)
Lemma loc_ok (s : Series) (labels : list value) :
  incl labels (index_tolist s) ->
  exists t, loc s labels = Ok t
            /\ index_tolist t = labels
            /\ Forall (fun e => get (fst e) s = Some (snd e)) t.
Proof.
  induction labels as [|k labels IH]; intros Hin; simpl.
  - exists []. repeat split. constructor.
  - destruct (get_In k s) as [m [Hg _]]; [apply Hin; now left|].
    destruct IH as [t [Ht [Hi Hf]]].
    { intros x Hx. apply Hin. now right. }
    rewrite Hg, Ht. exists ((k, m) :: t). repeat split.
    + simpl. now rewrite Hi.
    + constructor; assumption.
Qed.

Lemma firstn_prefix {A : Type} (k : nat) (l : list A) :
  exists rest, l = (firstn k l ++ rest)%list.
Proof. exists (skipn k l). symmetry. apply firstn_skipn. Qed.

Lemma head_prefix (n : Z) (s : Series) :
  exists rest, s = (head n s ++ rest)%list.
Proof. unfold head. destruct (0 <=? n); apply firstn_prefix. Qed.

Lemma top_of_prefix (S : sorter) (n : Z) (s : Series) :
  exists rest, index_tolist (S s) = (top_of S n s ++ rest)%list.
Proof.
  unfold top_of. destruct (n =? -1).
  - exists []. now rewrite app_nil_r.
  - destruct (head_prefix n (S s)) as [rest Hr].
    exists (index_tolist rest). rewrite Hr at 1.
    unfold index_tolist. apply map_app.
Qed.

Lemma sorted_index_perm (S : sorter) (s : Series) :
  Permutation (index_tolist (S s)) (index_tolist s).
Proof. apply Permutation_map, sort_desc_perm. Qed.

Lemma top_of_incl (S : sorter) (n : Z) (s : Series) :
  incl (top_of S n s) (index_tolist s).
Proof.
  intros k Hk. destruct (top_of_prefix S n s) as [rest Hr].
  apply (Permutation_in _ (sorted_index_perm S s)).
  rewrite Hr. apply in_or_app. now left.
Qed.

(** The news ranker on any store, once the aggregation gave [totals]. *)
Lemma news_run (S : sorter) (h : store) (df : ref) (d : DataFrame)
  (tc : string) (ncc : option string) (n : Z) (totals : Series) :
  nth_error h df = Some d ->
  has_column tc d = true ->
  news_totals d tc ncc = Ok totals ->
  let top := top_of S n totals in
  exists tot,
    loc totals top = Ok tot /\
    get_top_n_by_news S df tc ncc n h =
      if n =? -1 then (Ok (List.length h, top, tot), h ++ [d])%list
      else (Ok (Datatypes.S (List.length h), top, tot),
            h ++ [rows_in d tc top] ++ [rows_in d tc top])%list.
Proof.
  intros H Hc Ht top.
  destruct (loc_ok totals _ (top_of_incl S n totals)) as [tot [Hl _]].
  exists tot. split; [exact Hl|].
  unfold get_top_n_by_news.
  unfold bind at 1. unfold read at 1. rewrite H, Hc. simpl.
  unfold bind at 1. unfold lift at 1. rewrite Ht.
  subst top. unfold top_of in *.
  destruct (n =? -1).
  - unfold bind. rewrite (@copy_run _ _ _ H). unfold lift. rewrite Hl.
    reflexivity.
  - unfold bind. rewrite (@getitem_isin_run _ _ _ _ _ H).
    rewrite (@copy_run _ _ _ (nth_error_snoc h _)).
    unfold lift. rewrite Hl.
    unfold ret. rewrite length_app, <- app_assoc. simpl.
    now rewrite Nat.add_1_r.
Qed.

Lemma news_run_missing (S : sorter) (h : store) (df : ref) (d : DataFrame)
  (tc : string) (ncc : option string) (n : Z) :
  nth_error h df = Some d ->
  has_column tc d = false ->
  get_top_n_by_news S df tc ncc n h
  = (Raise (KeyError (missing_column_message tc)), h).
Proof.
  intros H Hc. unfold get_top_n_by_news.
  unfold bind at 1. unfold read at 1. now rewrite H, Hc.
Qed.

Lemma news_run_unsupported (S : sorter) (h : store) (df : ref)
  (d : DataFrame) (tc : string) (ncc : option string) (n : Z) (e : exn) :
  nth_error h df = Some d ->
  has_column tc d = true ->
  news_totals d tc ncc = Raise e ->
  get_top_n_by_news S df tc ncc n h = (Raise e, h).
Proof.
  intros H Hc Ht. unfold get_top_n_by_news.
  unfold bind at 1. unfold read at 1. rewrite H, Hc. simpl.
  unfold bind at 1. unfold lift at 1. now rewrite Ht.
Qed.

(** ** The rankers as functions of the frame *)

Lemma rank_by_history_eq (S : sorter) (d : DataFrame) (tc dc : string)
  (n : Z) :
  rank_by_history S d tc dc n =
    if has_column tc d then
      let top := top_of S n (history_counts d tc dc) in
      Ok (subset_of d tc n top, top)
    else Raise (KeyError (missing_column_message tc)).
Proof.
  unfold rank_by_history, subset_of.
  rewrite (history_run S [d] O d tc dc n eq_refl).
  destruct (has_column tc d); [|reflexivity].
  simpl. destruct (n =? -1); reflexivity.
Qed.

Lemma rank_by_news_ok (S : sorter) (d : DataFrame) (tc : string)
  (ncc : option string) (n : Z) (totals : Series) :
  has_column tc d = true ->
  news_totals d tc ncc = Ok totals ->
  exists tot,
    loc totals (top_of S n totals) = Ok tot /\
    rank_by_news S d tc ncc n
    = Ok (subset_of d tc n (top_of S n totals), top_of S n totals, tot).
Proof.
  intros Hc Ht.
  destruct (news_run S [d] O d tc ncc n totals eq_refl Hc Ht)
    as [tot [Hl Hr]].
  exists tot. split; [exact Hl|].
  unfold rank_by_news, subset_of. rewrite Hr.
  destruct (n =? -1); reflexivity.
Qed.

Lemma rank_by_news_missing (S : sorter) (d : DataFrame) (tc : string)
  (ncc : option string) (n : Z) :
  has_column tc d = false ->
  rank_by_news S d tc ncc n = Raise (KeyError (missing_column_message tc)).
Proof.
  intros Hc. unfold rank_by_news.
  now rewrite (news_run_missing S [d] O d tc ncc n eq_refl Hc).
Qed.

Lemma rank_by_news_raise (S : sorter) (d : DataFrame) (tc : string)
  (ncc : option string) (n : Z) (e : exn) :
  has_column tc d = true ->
  news_totals d tc ncc = Raise e ->
  rank_by_news S d tc ncc n = Raise e.
Proof.
  intros Hc Ht. unfold rank_by_news.
  now rewrite (news_run_unsupported S [d] O d tc ncc n e eq_refl Hc Ht).
Qed.

Lemma nth_error_second (h : store) (a b : DataFrame) :
  nth_error (h ++ [a] ++ [b])%list (Datatypes.S (List.length h)) = Some b.
Proof.
  rewrite nth_error_app2 by lia.
  replace (Datatypes.S (List.length h) - List.length h)%nat with 1%nat by lia.
  reflexivity.
Qed.

(** A call on any store that holds [d] under [df] gives what
    [rank_by_history] says: the same keys and, read back, the same
    subset, or the same exception. *)
Lemma history_on_any_store (S : sorter) (h : store) (df : ref)
  (d : DataFrame) (tc dc : string) (n : Z) :
  nth_error h df = Some d ->
  match get_top_n_by_history S df tc dc n h with
  | (Ok (l, top), h') =>
      exists sub, nth_error h' l = Some sub
                  /\ rank_by_history S d tc dc n = Ok (sub, top)
  | (Raise e, _) => rank_by_history S d tc dc n = Raise e
  end.
Proof.
  intros Hd. rewrite (history_run S h df d tc dc n Hd), rank_by_history_eq.
  destruct (has_column tc d); [|reflexivity].
  unfold subset_of. simpl. destruct (n =? -1).
  - exists d. split; [apply nth_error_snoc|reflexivity].
  - eexists. split; [apply nth_error_second|reflexivity].
Qed.

Lemma news_on_any_store (S : sorter) (h : store) (df : ref)
  (d : DataFrame) (tc : string) (ncc : option string) (n : Z) :
  nth_error h df = Some d ->
  match get_top_n_by_news S df tc ncc n h with
  | (Ok (l, top, tot), h') =>
      exists sub, nth_error h' l = Some sub
                  /\ rank_by_news S d tc ncc n = Ok (sub, top, tot)
  | (Raise e, _) => rank_by_news S d tc ncc n = Raise e
  end.
Proof.
  intros Hd. destruct (has_column tc d) eqn:Hc.
  - destruct (news_totals d tc ncc) as [totals|e] eqn:Ht.
    + destruct (news_run S h df d tc ncc n totals Hd Hc Ht)
        as [tot [Hl Hr]].
      destruct (rank_by_news_ok S d tc ncc n totals Hc Ht)
        as [tot' [Hl' Hr']].
      assert (tot' = tot) by congruence. subst tot'.
      rewrite Hr, Hr'. unfold subset_of. destruct (n =? -1).
      * exists d. split; [apply nth_error_snoc|reflexivity].
      * eexists. split; [apply nth_error_second|reflexivity].
    + rewrite (news_run_unsupported S h df d tc ncc n e Hd Hc Ht).
      now apply rank_by_news_raise.
  - rewrite (news_run_missing S h df d tc ncc n Hd Hc).
    now apply rank_by_news_missing.
Qed.

Lemma not_has_column (c : string) (d : DataFrame) :
  ~ In c (columns d) -> has_column c d = false.
Proof.
  intros H. destruct (has_column c d) eqn:E; [|reflexivity].
  apply has_column_In in E. contradiction.
Qed.

(** ** C1: the missing key column *)

Lemma message_names_column (tc : string) :
  exists pre suf : string,
    missing_column_message tc = (pre ++ tc ++ suf)%string.
Proof.
  exists "ticker_col '", "' not found in DataFrame columns". reflexivity.
Qed.

Lemma truthy_names (d : DataFrame) (ncc : option string) :
  truthy ncc && has_column (name_of ncc) d = true
  <-> exists c, names_column d ncc c.
Proof.
  unfold names_column. rewrite andb_true_iff, has_column_In.
  destruct ncc as [c|]; simpl.
  - rewrite negb_true_iff, String.eqb_neq. split.
    + intros [H1 H2]. exists c. tauto.
    + intros [c' [E [H1 H2]]]. injection E as <-. tauto.
  - split; [intros [E _]; discriminate E|].
    intros [c [E _]]. discriminate E.
Qed.

Lemma no_name_falls_through (d : DataFrame) (ncc : option string) :
  (forall c, ~ names_column d ncc c) ->
  truthy ncc && has_column (name_of ncc) d = false.
Proof.
  intros H. destruct (truthy ncc && has_column (name_of ncc) d) eqn:E;
    [|reflexivity].
  apply truthy_names in E. destruct E as [c Hc]. destruct (H c Hc).
Qed.

Lemma news_totals_numeric (d : DataFrame) (tc : string)
  (ncc : option string) :
  summed_column_numeric d ncc ->
  exists totals, news_totals d tc ncc = Ok totals.
Proof.
  intros [Hnamed Hdefault]. unfold news_totals, sum_by.
  destruct (truthy ncc && has_column (name_of ncc) d) eqn:E.
  - apply truthy_names in E. destruct E as [c Hc].
    rewrite (proj1 Hc). simpl. rewrite (Hnamed c Hc). eauto.
  - destruct (has_column "news_count" d) eqn:E'; [|eauto].
    rewrite Hdefault; [eauto| |now apply has_column_In].
    intros c Hc.
    assert (T : truthy ncc && has_column (name_of ncc) d = true)
      by (apply truthy_names; now exists c).
    congruence.
Qed.

(** C1, as stated, fails in its last clause: with the key column present
    (and every label distinct), the news ranker raises a TypeError on the
    frame below, whose count column holds a number and a string for the
    same ticker, so the sum of the group cannot be formed. *)
Lemma C1_counterexample :
  In "ticker" (columns mixed_news)
  /\ NoDup (columns mixed_news)
  /\ rank_by_news stable_sorter mixed_news "ticker" None 2 = Raise TypeError
  /\ rank_by_news stable_sorter mixed_news "ticker" (Some "news_count") (-1)
     = Raise TypeError.
Proof.
  split; [simpl; tauto|].
  split; [|split; reflexivity].
  constructor.
  - simpl. intros [E|[]]. discriminate E.
  - constructor; [simpl; tauto|constructor].
Qed.

(** C1, amended. For both rankers, a key column that is not among the
    columns of the frame makes the call raise the rankers' KeyError, whose
    message contains the column name; this holds whatever the other
    arguments and the cells are, the store is left as it was, and nothing
    has been aggregated (the outcome does not depend on the aggregation,
    not even on whether it raises).  With the key column present, on a
    frame whose labels are distinct, the history ranker raises nothing,
    and the news ranker raises nothing when the column it sums holds
    numbers and missing cells only; a date or count column that is not
    there is no error. *)
Theorem C1_missing_key_column (S : sorter) (d : DataFrame)
  (tc dc : string) (ncc : option string) (n : Z) :
  (~ In tc (columns d) ->
     rank_by_history S d tc dc n
       = Raise (KeyError (missing_column_message tc))
     /\ rank_by_news S d tc ncc n
       = Raise (KeyError (missing_column_message tc))
     /\ (forall h df, nth_error h df = Some d ->
           get_top_n_by_history S df tc dc n h
             = (Raise (KeyError (missing_column_message tc)), h)
           /\ get_top_n_by_news S df tc ncc n h
             = (Raise (KeyError (missing_column_message tc)), h))
     /\ exists pre suf : string,
          missing_column_message tc = (pre ++ tc ++ suf)%string)
  /\ (In tc (columns d) -> NoDup (columns d) ->
     (exists r, rank_by_history S d tc dc n = Ok r)
     /\ (summed_column_numeric d ncc ->
         exists r, rank_by_news S d tc ncc n = Ok r)).
Proof.
  split.
  - intros Hc. apply not_has_column in Hc.
    split; [|split; [|split]].
    + rewrite rank_by_history_eq. now rewrite Hc.
    + now apply rank_by_news_missing.
    + intros h df Hd. split.
      * rewrite (history_run S h df d tc dc n Hd). now rewrite Hc.
      * now apply news_run_missing with (d := d).
    + apply message_names_column.
  - intros Hc _. apply has_column_In in Hc. split.
    + rewrite rank_by_history_eq, Hc. eauto.
    + intros Hnum.
      destruct (news_totals_numeric d tc ncc Hnum) as [totals Ht].
      destruct (rank_by_news_ok S d tc ncc n totals Hc Ht) as [tot [_ Hr]].
      eauto.
Qed.

Lemma C1_missing_key_column_witness :
  (rank_by_history stable_sorter prices "symbol" "date" 2
     = Raise (KeyError "ticker_col 'symbol' not found in DataFrame columns")
   /\ rank_by_news stable_sorter mixed_news "symbol" None 2
     = Raise (KeyError "ticker_col 'symbol' not found in DataFrame columns"))
  /\ (exists r, rank_by_history stable_sorter prices "ticker" "date" 2 = Ok r)
  /\ (exists r, rank_by_news stable_sorter news "ticker" (Some "hits") 2
                = Ok r).
Proof.
  split; [|split].
  - destruct (C1_missing_key_column stable_sorter prices "symbol" "date"
                None 2) as [H _].
    destruct (C1_missing_key_column stable_sorter mixed_news "symbol" "date"
                None 2) as [H' _].
    split.
    + apply H. simpl. intros [E|[E|[]]]; discriminate E.
    + apply H'. simpl. intros [E|[E|[]]]; discriminate E.
  - destruct (C1_missing_key_column stable_sorter prices "ticker" "date"
                None 2) as [_ H].
    apply H.
    + simpl. left. reflexivity.
    + repeat constructor; simpl; intuition discriminate.
  - destruct (C1_missing_key_column stable_sorter news "ticker" "date"
                (Some "hits") 2) as [_ H].
    apply H.
    + simpl. left. reflexivity.
    + repeat constructor; simpl; intuition discriminate.
    + split.
      * intros c [E _]. injection E as <-. reflexivity.
      * intros _ _. reflexivity.
Defined.

(** ** C9: the store *)

Lemma write_other (h : store) (l l' : ref) (d : DataFrame) :
  l <> l' -> nth_error (write l d h) l' = nth_error h l'.
Proof.
  revert l l'. induction h as [|x h IH]; intros l l' Hne.
  - destruct l; reflexivity.
  - destruct l as [|l], l' as [|l']; simpl; try reflexivity.
    + congruence.
    + apply IH. congruence.
Qed.

Lemma nth_error_bound (h : store) (l : ref) (d : DataFrame) :
  nth_error h l = Some d -> (l < List.length h)%nat.
Proof. intros H. apply nth_error_Some. congruence. Qed.

Lemma grows_raise {A : Type} (ref_of : A -> ref) (h : store) (e : exn) :
  grows ref_of h (Raise e, h).
Proof. split; simpl; [reflexivity|discriminate]. Qed.

Lemma grows_alloc {A : Type} (ref_of : A -> ref) (h extra : store) (a : A) :
  (List.length h <= ref_of a < List.length (h ++ extra))%nat ->
  grows ref_of h (Ok a, (h ++ extra)%list).
Proof.
  intros [Hlo Hhi]. split; simpl.
  - intros l Hl. now apply nth_error_old.
  - intros a' E. injection E as <-. repeat split; try assumption.
    intros l d' Hl. rewrite write_other by lia. now apply nth_error_old.
Qed.

(** C9. Neither ranker changes a frame of the store: after any call, with
    any outcome, every frame that existed before it (the input among them)
    is the same, labels, rows and order.  The subset is returned under a
    reference that did not exist before the call, so it is an object of its
    own, and whatever is later assigned into it, the input and the other
    old frames still read as before. *)
Theorem C9_input_not_mutated (S : sorter) (h : store) (df : ref)
  (d : DataFrame) (tc dc : string) (ncc : option string) (n : Z) :
  nth_error h df = Some d ->
  grows fst h (get_top_n_by_history S df tc dc n h)
  /\ grows (fun r => fst (fst r)) h (get_top_n_by_news S df tc ncc n h)
  /\ nth_error (snd (get_top_n_by_history S df tc dc n h)) df = Some d
  /\ nth_error (snd (get_top_n_by_news S df tc ncc n h)) df = Some d.
Proof.
  intros Hd. pose proof (nth_error_bound h df d Hd) as Hb.
  assert (G1 : grows fst h (get_top_n_by_history S df tc dc n h)).
  { rewrite (history_run S h df d tc dc n Hd).
    destruct (has_column tc d); [|apply grows_raise].
    simpl. destruct (n =? -1); apply grows_alloc;
      rewrite length_app; simpl; lia. }
  assert (G2 : grows (fun r => fst (fst r)) h
                 (get_top_n_by_news S df tc ncc n h)).
  { destruct (has_column tc d) eqn:Hc.
    - destruct (news_totals d tc ncc) as [totals|e] eqn:Ht.
      + destruct (news_run S h df d tc ncc n totals Hd Hc Ht)
          as [tot [_ Hr]].
        rewrite Hr. destruct (n =? -1); apply grows_alloc;
          rewrite length_app; simpl; lia.
      + rewrite (news_run_unsupported S h df d tc ncc n e Hd Hc Ht).
        apply grows_raise.
    - rewrite (news_run_missing S h df d tc ncc n Hd Hc).
      apply grows_raise. }
  split; [exact G1|split; [exact G2|split]].
  - rewrite (proj1 G1 df Hb). exact Hd.
  - rewrite (proj1 G2 df Hb). exact Hd.
Qed.

Lemma C9_input_not_mutated_witness :
  grows fst [prices]
    (get_top_n_by_history stable_sorter O "ticker" "date" 2 [prices])
  /\ grows (fun r => fst (fst r)) [prices]
       (get_top_n_by_news stable_sorter O "ticker" None 2 [prices])
  /\ nth_error
       (snd (get_top_n_by_history stable_sorter O "ticker" "date" 2 [prices]))
       O = Some prices
  /\ nth_error
       (snd (get_top_n_by_news stable_sorter O "ticker" None 2 [prices]))
       O = Some prices.
Proof.
  exact (C9_input_not_mutated stable_sorter [prices] O prices
           "ticker" "date" None 2 eq_refl).
Defined.

(** ** The index of the measures *)

Lemma history_counts_index (d : DataFrame) (tc dc : string) :
  index_tolist (history_counts d tc dc) = group_keys d tc.
Proof.
  unfold history_counts, groupby_nunique, groupby_size.
  destruct (has_column dc d); apply aggregate_index.
Qed.

Lemma news_totals_index (d : DataFrame) (tc : string)
  (ncc : option string) (totals : Series) :
  news_totals d tc ncc = Ok totals ->
  index_tolist totals = group_keys d tc.
Proof.
  unfold news_totals, sum_by, groupby_sum, groupby_size.
  destruct (truthy ncc && has_column (name_of ncc) d).
  - destruct (numeric_column d (name_of ncc)); 
    [|destruct (existsb _ _); discriminate].
    intros E. injection E as <-. apply aggregate_index.
  - destruct (has_column "news_count" d).
    + destruct (numeric_column d "news_count"); 
      [|destruct (existsb _ _); discriminate].
      intros E. injection E as <-. apply aggregate_index.
    + intros E. injection E as <-. apply aggregate_index.
Qed.

Lemma top_of_all (S : sorter) (s : Series) :
  Permutation (top_of S (-1) s) (index_tolist s).
Proof. unfold top_of. simpl. apply sorted_index_perm. Qed.

Lemma top_of_all_In (S : sorter) (d : DataFrame) (tc : string)
  (s : Series) (k : value) :
  index_tolist s = group_keys d tc ->
  In k (top_of S (-1) s) <-> k <> VNull /\ In k (column d tc).
Proof.
  intros Hi. rewrite <- group_keys_In, <- Hi.
  split; apply Permutation_in; [|symmetry]; apply top_of_all.
Qed.

Lemma filter_all {A : Type} (f : A -> bool) (l : list A) :
  (forall x, In x l -> f x = true) -> filter f l = l.
Proof.
  induction l as [|x l IH]; simpl; intros H; [reflexivity|].
  rewrite (H x (or_introl eq_refl)). f_equal. apply IH.
  intros y Hy. apply H. now right.
Qed.

(** Without a missing key, selecting the rows of all groups selects every
    row. *)
Lemma rows_in_all (d : DataFrame) (tc : string) (top : list value) :
  forallb notnull (column d tc) = true ->
  (forall k, In k top <-> k <> VNull /\ In k (column d tc)) ->
  rows_in d tc top = d.
Proof.
  intros Hnn Htop. destruct d as [cols rs]. unfold rows_in. simpl.
  f_equal. apply filter_all. intros r Hr.
  apply isin_In, Htop.
  assert (Hin : In (cell (mkFrame cols rs) tc r) (column (mkFrame cols rs) tc)).
  { unfold column. simpl. now apply in_map. }
  split; [|exact Hin].
  rewrite forallb_forall in Hnn. now apply notnull_true, Hnn.
Qed.

Lemma subset_of_rows_in (d : DataFrame) (tc : string) (n : Z)
  (top : list value) :
  n <> -1 -> subset_of d tc n top = rows_in d tc top.
Proof.
  intros Hn. unfold subset_of.
  destruct (Z.eqb_spec n (-1)); [contradiction|reflexivity].
Qed.

Lemma subset_of_selection (S : sorter) (d : DataFrame) (tc : string)
  (n : Z) (s : Series) :
  index_tolist s = group_keys d tc ->
  n <> -1 \/ forallb notnull (column d tc) = true ->
  subset_of d tc n (top_of S n s) = rows_in d tc (top_of S n s).
Proof.
  intros Hi Hn. destruct (Z.eqb_spec n (-1)) as [->|Hne].
  - destruct Hn as [Hn|Hn]; [contradiction|].
    unfold subset_of. simpl. symmetry. apply rows_in_all; [exact Hn|].
    intros k. now apply top_of_all_In.
  - now apply subset_of_rows_in.
Qed.

(** ** C2: the subset *)

(** C2, as stated, fails for [n = -1] on a frame with a missing key: the
    whole frame comes back, and its row without ticker has a key that is
    none of the returned keys. *)
Lemma C2_counterexample :
  rank_by_history stable_sorter prices "ticker" "date" (-1)
    = Ok (prices, [VStr "B"; VStr "A"; VStr "C"])
  /\ In [VNull; VInt 7] (rows prices)
  /\ ~ In (cell prices "ticker" [VNull; VInt 7])
         [VStr "B"; VStr "A"; VStr "C"]
  /\ prices <> rows_in prices "ticker" [VStr "B"; VStr "A"; VStr "C"].
Proof.
  split; [vm_compute; reflexivity|].
  split; [simpl; tauto|].
  split.
  - vm_compute. intros [E|[E|[E|[]]]]; discriminate E.
  - vm_compute. intros E. discriminate E.
Qed.

(** C2, amended. With the key column present and [n] other than -1, the
    subset of either ranker holds exactly the rows of the input whose key
    is one of the returned keys, in the row order of the input.  For
    [n = -1] the subset is the whole input (C8); this is the same
    selection as soon as no row has a missing key. *)
Theorem C2_subset_rows (S : sorter) (d : DataFrame) (tc dc : string)
  (ncc : option string) (n : Z) :
  In tc (columns d) ->
  n <> -1 \/ forallb notnull (column d tc) = true ->
  (exists top,
     rank_by_history S d tc dc n = Ok (rows_in d tc top, top))
  /\ (forall totals, news_totals d tc ncc = Ok totals ->
      exists top tot,
        rank_by_news S d tc ncc n = Ok (rows_in d tc top, top, tot)).
Proof.
  intros Hc Hn. apply has_column_In in Hc. split.
  - exists (top_of S n (history_counts d tc dc)).
    rewrite rank_by_history_eq, Hc. simpl.
    rewrite subset_of_selection;
      [reflexivity|apply history_counts_index|exact Hn].
  - intros totals Ht.
    destruct (rank_by_news_ok S d tc ncc n totals Hc Ht) as [tot [_ Hr]].
    exists (top_of S n totals), tot. rewrite Hr.
    rewrite subset_of_selection;
      [reflexivity|apply (news_totals_index d tc ncc totals Ht)|exact Hn].
Qed.

Lemma C2_subset_rows_witness :
  (exists top,
     rank_by_history stable_sorter prices "ticker" "date" 2
     = Ok (rows_in prices "ticker" top, top))
  /\ (exists top tot,
        rank_by_news stable_sorter news "ticker" None 1
        = Ok (rows_in news "ticker" top, top, tot)).
Proof.
  split.
  - apply (C2_subset_rows stable_sorter prices "ticker" "date" None 2).
    + simpl. left. reflexivity.
    + left. lia.
  - destruct (C2_subset_rows stable_sorter news "ticker" "date" None 1)
      as [_ H].
    + simpl. left. reflexivity.
    + left. lia.
    + apply (H [(VStr "P", 10); (VStr "Q", 20)]). reflexivity.
Defined.

(** ** C8: all groups *)

(** C8. With the key column present and [n = -1], the history ranker
    returns the input frame as the subset (same labels, same rows, same
    order) and a key list whose members are exactly the values found in the
    key column (a missing cell is no value); so does the news ranker,
    whenever its measure is defined. *)
Theorem C8_all_groups (S : sorter) (d : DataFrame) (tc dc : string)
  (ncc : option string) :
  In tc (columns d) ->
  (exists top,
     rank_by_history S d tc dc (-1) = Ok (d, top)
     /\ forall k, In k top <-> k <> VNull /\ In k (column d tc))
  /\ (forall totals, news_totals d tc ncc = Ok totals ->
      exists top tot,
        rank_by_news S d tc ncc (-1) = Ok (d, top, tot)
        /\ forall k, In k top <-> k <> VNull /\ In k (column d tc)).
Proof.
  intros Hc. apply has_column_In in Hc. split.
  - exists (top_of S (-1) (history_counts d tc dc)). split.
    + rewrite rank_by_history_eq, Hc. reflexivity.
    + intros k. apply top_of_all_In, history_counts_index.
  - intros totals Ht.
    destruct (rank_by_news_ok S d tc ncc (-1) totals Hc Ht)
      as [tot [_ Hr]].
    exists (top_of S (-1) totals), tot. split; [exact Hr|].
    intros k. apply top_of_all_In.
    apply (news_totals_index d tc ncc totals Ht).
Qed.

Lemma C8_all_groups_witness :
  (exists top,
     rank_by_history stable_sorter prices "ticker" "date" (-1)
     = Ok (prices, top)
     /\ forall k, In k top <-> k <> VNull /\ In k (column prices "ticker"))
  /\ (exists top tot,
        rank_by_news stable_sorter news "ticker" None (-1)
        = Ok (news, top, tot)
        /\ forall k, In k top <-> k <> VNull /\ In k (column news "ticker")).
Proof.
  split.
  - apply (C8_all_groups stable_sorter prices "ticker" "date" None).
    simpl. left. reflexivity.
  - apply (proj2 (C8_all_groups stable_sorter news "ticker" "date" None
                    (or_introl eq_refl))
             [(VStr "P", 10); (VStr "Q", 20)]).
    reflexivity.
Defined.

(** ** C3: how many keys *)

Lemma top_of_head (S : sorter) (n : Z) (s : Series) :
  0 <= n -> top_of S n s = firstn (Z.to_nat n) (index_tolist (S s)).
Proof.
  intros Hn. unfold top_of, head, index_tolist.
  destruct (Z.eqb_spec n (-1)); [lia|].
  destruct (Z.leb_spec 0 n); [|lia].
  symmetry. apply firstn_map.
Qed.

Lemma top_of_NoDup (S : sorter) (n : Z) (s : Series) :
  NoDup (index_tolist s) -> NoDup (top_of S n s).
Proof.
  intros Hs. destruct (top_of_prefix S n s) as [rest Hr].
  assert (Hn : NoDup (index_tolist (S s))).
  { eapply Permutation_NoDup; [|exact Hs].
    symmetry. apply sorted_index_perm. }
  rewrite Hr in Hn. now apply NoDup_app_remove_r in Hn.
Qed.

Lemma top_n_ok_top_of (S : sorter) (d : DataFrame) (tc : string) (n : Z)
  (s : Series) :
  index_tolist s = group_keys d tc ->
  0 <= n ->
  top_n_ok d tc n (top_of S n s).
Proof.
  intros Hi Hn.
  assert (Hp : Permutation (index_tolist (S s)) (group_keys d tc)).
  { rewrite <- Hi. apply sorted_index_perm. }
  assert (Hg : forall l, NoDup l ->
             (forall k, In k l <-> k <> VNull /\ In k (column d tc)) ->
             Permutation (index_tolist (S s)) l).
  { intros l Hl Hin. rewrite Hp. apply NoDup_Permutation;
      [apply group_keys_NoDup|assumption|].
    intros k. now rewrite Hin, group_keys_In. }
  split; [|split].
  - intros l Hl Hin. rewrite top_of_head by assumption.
    rewrite length_firstn.
    now rewrite (Permutation_length (Hg l Hl Hin)).
  - apply top_of_NoDup. rewrite Hi. apply group_keys_NoDup.
  - intros l Hl Hin Hle. rewrite top_of_head by assumption.
    rewrite firstn_all2; [now apply Hg|].
    rewrite (Permutation_length (Hg l Hl Hin)). lia.
Qed.

(** C3. With the key column present and [n >= 0], the key list of either
    ranker has [min n g] entries, [g] being the number of distinct values
    of the key column (the length of any duplicate-free list of them), and
    no key twice; when [n] is at least [g] the list is a rearrangement of
    all the keys: every group, nothing added, no exception. *)
Theorem C3_top_keys_count (S : sorter) (d : DataFrame) (tc dc : string)
  (ncc : option string) (n : Z) :
  In tc (columns d) ->
  0 <= n ->
  (exists sub top,
     rank_by_history S d tc dc n = Ok (sub, top) /\ top_n_ok d tc n top)
  /\ (forall totals, news_totals d tc ncc = Ok totals ->
      exists sub top tot,
        rank_by_news S d tc ncc n = Ok (sub, top, tot)
        /\ top_n_ok d tc n top).
Proof.
  intros Hc Hn. apply has_column_In in Hc. split.
  - exists (subset_of d tc n (top_of S n (history_counts d tc dc))),
      (top_of S n (history_counts d tc dc)). split.
    + rewrite rank_by_history_eq, Hc. reflexivity.
    + apply top_n_ok_top_of; [apply history_counts_index|exact Hn].
  - intros totals Ht.
    destruct (rank_by_news_ok S d tc ncc n totals Hc Ht) as [tot [_ Hr]].
    exists (subset_of d tc n (top_of S n totals)), (top_of S n totals), tot.
    split; [exact Hr|].
    apply top_n_ok_top_of;
      [apply (news_totals_index d tc ncc totals Ht)|exact Hn].
Qed.

Lemma C3_top_keys_count_witness :
  (exists sub top,
     rank_by_history stable_sorter prices "ticker" "date" 5 = Ok (sub, top)
     /\ top_n_ok prices "ticker" 5 top)
  /\ (exists sub top tot,
        rank_by_news stable_sorter news "ticker" None 1 = Ok (sub, top, tot)
        /\ top_n_ok news "ticker" 1 top).
Proof.
  split.
  - apply (C3_top_keys_count stable_sorter prices "ticker" "date" None 5).
    + simpl. left. reflexivity.
    + lia.
  - destruct (C3_top_keys_count stable_sorter news "ticker" "date" None 1)
      as [_ H].
    + simpl. left. reflexivity.
    + lia.
    + apply (H [(VStr "P", 10); (VStr "Q", 20)]). reflexivity.
Defined.

(** ** C5: the totals of the news ranker *)

(** C5. With the key column present, for every [n], the third component
    returned by the news ranker has the returned keys as its index, in the
    same order, and holds for each key the measure the aggregation computed
    for that group. *)
Theorem C5_totals_follow_keys (S : sorter) (d : DataFrame) (tc : string)
  (ncc : option string) (n : Z) (totals : Series) :
  In tc (columns d) ->
  news_totals d tc ncc = Ok totals ->
  exists sub top tot,
    rank_by_news S d tc ncc n = Ok (sub, top, tot)
    /\ index_tolist tot = top
    /\ Forall (fun e => get (fst e) totals = Some (snd e)) tot.
Proof.
  intros Hc Ht. apply has_column_In in Hc.
  destruct (rank_by_news_ok S d tc ncc n totals Hc Ht) as [tot [Hl Hr]].
  destruct (loc_ok totals _ (top_of_incl S n totals)) as [tot' [Hl' [Hi Hf]]].
  assert (tot' = tot) by congruence. subst tot'.
  exists (subset_of d tc n (top_of S n totals)), (top_of S n totals), tot.
  repeat split; assumption.
Qed.

Lemma C5_totals_follow_keys_witness :
  exists sub top tot,
    rank_by_news stable_sorter news "ticker" None 2 = Ok (sub, top, tot)
    /\ index_tolist tot = top
    /\ Forall (fun e => get (fst e) [(VStr "P", 10); (VStr "Q", 20)]
                        = Some (snd e)) tot.
Proof.
  apply (C5_totals_follow_keys stable_sorter news "ticker" None 2).
  - simpl. left. reflexivity.
  - reflexivity.
Defined.

(** ** C10: [n] below -1 *)

Lemma top_of_negative (S : sorter) (n : Z) (s : Series) :
  n < -1 ->
  top_of S n s
  = index_tolist (firstn (List.length s - Z.to_nat (- n)) (S s)).
Proof.
  intros Hn. unfold top_of, head.
  destruct (Z.eqb_spec n (-1)); [lia|].
  destruct (Z.leb_spec 0 n); [lia|].
  now rewrite (Permutation_length (sort_desc_perm S s)).
Qed.

Lemma drops_lowest_top_of (S : sorter) (n : Z) (s : Series) :
  n < -1 -> drops_lowest s n (top_of S n s).
Proof.
  intros Hn. rewrite top_of_negative by assumption.
  pose proof (Permutation_length (sort_desc_perm S s)) as Hlen.
  set (k := (List.length s - Z.to_nat (- n))%nat).
  exists (S s), (index_tolist (skipn k (S s))).
  split; [apply sort_desc_perm|].
  split; [apply sort_desc_sorted|].
  split; [|split].
  - unfold index_tolist. rewrite <- map_app. now rewrite firstn_skipn.
  - unfold index_tolist. rewrite length_map, length_skipn.
    subst k. lia.
  - intros Hle. subst k.
    replace (List.length s - Z.to_nat (- n))%nat with O by lia.
    reflexivity.
Qed.

(** C10. With the key column present and [n < -1], neither ranker takes
    the [n = -1] branch or raises: the key list is the ranking (all the
    groups, by descending measure) without its last [-n] entries, empty
    when there are at most [-n] groups, and the subset holds the rows whose
    key is in that list. *)
Theorem C10_negative_n (S : sorter) (d : DataFrame) (tc dc : string)
  (ncc : option string) (n : Z) :
  In tc (columns d) ->
  n < -1 ->
  (exists top,
     rank_by_history S d tc dc n = Ok (rows_in d tc top, top)
     /\ drops_lowest (history_counts d tc dc) n top
     /\ index_tolist (history_counts d tc dc) = group_keys d tc)
  /\ (forall totals, news_totals d tc ncc = Ok totals ->
      exists top tot,
        rank_by_news S d tc ncc n = Ok (rows_in d tc top, top, tot)
        /\ drops_lowest totals n top
        /\ index_tolist totals = group_keys d tc).
Proof.
  intros Hc Hn. apply has_column_In in Hc.
  assert (Hne : n <> -1) by lia. split.
  - exists (top_of S n (history_counts d tc dc)). split; [|split].
    + rewrite rank_by_history_eq, Hc. simpl.
      now rewrite subset_of_rows_in.
    + now apply drops_lowest_top_of.
    + apply history_counts_index.
  - intros totals Ht.
    destruct (rank_by_news_ok S d tc ncc n totals Hc Ht) as [tot [_ Hr]].
    exists (top_of S n totals), tot. split; [|split].
    + rewrite Hr. now rewrite subset_of_rows_in.
    + now apply drops_lowest_top_of.
    + apply (news_totals_index d tc ncc totals Ht).
Qed.

Lemma C10_negative_n_witness :
  (exists top,
     rank_by_history stable_sorter prices "ticker" "date" (-2)
     = Ok (rows_in prices "ticker" top, top)
     /\ drops_lowest (history_counts prices "ticker" "date") (-2) top
     /\ index_tolist (history_counts prices "ticker" "date")
        = group_keys prices "ticker")
  /\ (exists top tot,
        rank_by_news stable_sorter news "ticker" None (-2)
        = Ok (rows_in news "ticker" top, top, tot)
        /\ drops_lowest [(VStr "P", 10); (VStr "Q", 20)] (-2) top
        /\ index_tolist [(VStr "P", 10); (VStr "Q", 20)]
           = group_keys news "ticker").
Proof.
  split.
  - apply (C10_negative_n stable_sorter prices "ticker" "date" None (-2)).
    + simpl. left. reflexivity.
    + lia.
  - destruct (C10_negative_n stable_sorter news "ticker" "date" None (-2))
      as [_ H].
    + simpl. left. reflexivity.
    + lia.
    + apply (H [(VStr "P", 10); (VStr "Q", 20)]). reflexivity.
Defined.

(** ** C7: the measure of the history ranker *)

Lemma nunique_distinct (cells : list value) :
  exists l,
    NoDup l
    /\ (forall v, In v l <-> v <> VNull /\ In v cells)
    /\ nunique cells = Z.of_nat (List.length l).
Proof.
  exists (dedup (filter notnull cells)). split; [apply dedup_NoDup|].
  split; [|reflexivity].
  intros v. rewrite dedup_In, filter_In, notnull_true. tauto.
Qed.

(** Any two duplicate-free lists of the same values are equally long: the
    count of distinct values does not depend on the enumeration. *)
Lemma distinct_count_unique (l l' : list value) :
  NoDup l -> NoDup l' -> (forall v, In v l <-> In v l') ->
  List.length l = List.length l'.
Proof.
  intros H H' Hin. apply Permutation_length.
  now apply NoDup_Permutation.
Qed.

(** C7. The measure the history ranker computes for a group is, when the
    date column is among the columns, the number of distinct values found
    in the date cells of the rows of the group (a value is counted once
    however often it occurs, and a missing cell is no value); when the date
    column is not among the columns, it is the number of rows of the
    group. *)
Theorem C7_history_measure (d : DataFrame) (tc dc : string) (k : value) :
  In k (group_keys d tc) ->
  (In dc (columns d) ->
     exists dates,
       NoDup dates
       /\ (forall v, In v dates <->
             v <> VNull
             /\ exists r, In r (rows d) /\ cell d tc r = k
                          /\ cell d dc r = v)
       /\ get k (history_counts d tc dc)
          = Some (Z.of_nat (List.length dates)))
  /\ (~ In dc (columns d) ->
     get k (history_counts d tc dc)
     = Some (Z.of_nat (List.length
                         (filter (fun r => value_eqb (cell d tc r) k)
                            (rows d))))).
Proof.
  intros Hk. unfold history_counts. split.
  - intros Hdc. apply has_column_In in Hdc. rewrite Hdc.
    unfold groupby_nunique. rewrite aggregate_get by assumption.
    destruct (nunique_distinct (map (cell d dc) (group_rows d tc k)))
      as [dates [Hnd [Hin Hn]]].
    exists dates. split; [exact Hnd|]. split; [|now rewrite Hn].
    intros v. rewrite Hin, in_map_iff. unfold group_rows.
    split; intros [Hv [r Hr]]; (split; [exact Hv|]); exists r.
    + destruct Hr as [Hc Hr]. apply filter_In in Hr.
      destruct Hr as [Hr Hkey]. apply value_eqb_eq in Hkey. tauto.
    + destruct Hr as [Hr [Hkey Hc]]. split; [exact Hc|].
      apply filter_In. split; [exact Hr|]. now apply value_eqb_eq.
  - intros Hdc. apply not_has_column in Hdc. rewrite Hdc.
    unfold groupby_size. now rewrite aggregate_get by assumption.
Qed.

Lemma C7_history_measure_witness :
  (exists dates,
     NoDup dates
     /\ (forall v, In v dates <->
           v <> VNull
           /\ exists r, In r (rows prices) /\ cell prices "ticker" r = VStr "A"
                        /\ cell prices "date" r = v)
     /\ get (VStr "A") (history_counts prices "ticker" "date")
        = Some (Z.of_nat (List.length dates)))
  /\ get (VStr "A") (history_counts prices "ticker" "day") = Some 4.
Proof.
  assert (Hk : In (VStr "A") (group_keys prices "ticker")).
  { vm_compute. left. reflexivity. }
  split.
  - apply (C7_history_measure prices "ticker" "date" (VStr "A") Hk).
    simpl. right. left. reflexivity.
  - apply (C7_history_measure prices "ticker" "day" (VStr "A") Hk).
    simpl. intros [E|[E|[]]]; discriminate E.
Defined.

(** On [prices], A has four rows and three dates, B six rows and five
    dates. *)
Example history_counts_prices :
  history_counts prices "ticker" "date"
  = [(VStr "A", 3); (VStr "B", 5); (VStr "C", 1)]
  /\ history_counts prices "ticker" "day"
     = [(VStr "A", 4); (VStr "B", 6); (VStr "C", 1)].
Proof. split; reflexivity. Qed.

(** ** C6: the measure of the news ranker *)

(** The order in which lines 41-46 choose the measure, for a count column
    that is named by something else than the empty string. *)
Lemma news_totals_priority (d : DataFrame) (tc : string)
  (ncc : option string) :
  (forall c, names_column d ncc c -> numeric_column d c = true ->
     news_totals d tc ncc = Ok (groupby_sum d tc c))
  /\ ((forall c, ~ names_column d ncc c) ->
      In "news_count" (columns d) ->
      numeric_column d "news_count" = true ->
      news_totals d tc ncc = Ok (groupby_sum d tc "news_count"))
  /\ ((forall c, ~ names_column d ncc c) ->
      ~ In "news_count" (columns d) ->
      news_totals d tc ncc = Ok (groupby_size d tc)).
Proof.
  unfold news_totals, sum_by. split; [|split].
  - intros c Hc Hn.
    assert (E : truthy ncc && has_column (name_of ncc) d = true).
    { apply truthy_names. now exists c. }
    rewrite E. destruct Hc as [-> _]. simpl. now rewrite Hn.
  - intros Hno Hc Hn. rewrite (no_name_falls_through d ncc Hno).
    apply has_column_In in Hc. now rewrite Hc, Hn.
  - intros Hno Hc. rewrite (no_name_falls_through d ncc Hno).
    apply not_has_column in Hc. now rewrite Hc.
Qed.

(** C6. The claim, like the docstring ("If [news_count_col] is provided
    ... the function sums that column per ticker"), has a count column
    that is given and present summed.  On [news], with [news_count_col]
    the empty string, which labels a numeric column of the frame, the
    test of line 41 takes the name for no name: the measure is the sum of
    "news_count" (P 10, Q 20) and not the sum of the column given (P 200,
    Q 1), and Q is ranked before P. *)
Theorem C6_empty_name_not_summed :
  In "" (columns news)
  /\ numeric_column news "" = true
  /\ groupby_sum news "ticker" "" = [(VStr "P", 200); (VStr "Q", 1)]
  /\ groupby_sum news "ticker" "news_count"
     = [(VStr "P", 10); (VStr "Q", 20)]
  /\ news_totals news "ticker" (Some "")
     = Ok (groupby_sum news "ticker" "news_count")
  /\ news_totals news "ticker" (Some "")
     <> Ok (groupby_sum news "ticker" "")
  /\ rank_by_news stable_sorter news "ticker" (Some "") (-1)
     = Ok (news, [VStr "Q"; VStr "P"], [(VStr "Q", 20); (VStr "P", 10)]).
Proof.
  split; [simpl; tauto|].
  repeat (split; [reflexivity|]).
  split; [|reflexivity].
  vm_compute. intros E. discriminate E.
Qed.

(** ** The order of the group labels *)

Lemma string_compare_gt (x y : string) :
  String_as_OT.compare x y = Gt -> String_as_OT.compare y x = Lt.
Proof.
  intros H. destruct (String_as_OT.compare_spec x y) as [E|L|G];
    try discriminate. exact G.
Qed.

Lemma string_compare_eq (x y : string) :
  String_as_OT.compare x y = Eq -> x = y.
Proof.
  intros H. destruct (String_as_OT.compare_spec x y) as [E|L|G];
    try discriminate. exact E.
Qed.

Lemma value_leb_false (a b : value) :
  value_leb a b = false -> value_lt b a.
Proof.
  unfold value_leb, value_lt.
  destruct a as [|x|x], b as [|y|y]; simpl; try discriminate;
    try reflexivity.
  - destruct (Z.compare_spec x y); try discriminate. intros _.
    now apply Z.compare_lt_iff.
  - destruct (String_as_OT.compare x y) eqn:E; try discriminate.
    intros _. now apply string_compare_gt.
Qed.

Lemma value_leb_true (a b : value) :
  value_leb a b = true -> a = b \/ value_lt a b.
Proof.
  unfold value_leb, value_lt.
  destruct a as [|x|x], b as [|y|y]; simpl; try discriminate; auto.
  - destruct (Z.compare_spec x y); try discriminate; auto.
    left. now subst.
  - destruct (String_as_OT.compare x y) eqn:E; try discriminate; auto.
    left. apply string_compare_eq in E. now subst.
Qed.

Lemma value_lt_trans (a b c : value) :
  value_lt a b -> value_lt b c -> value_lt a c.
Proof.
  unfold value_lt.
  destruct a as [|x|x], b as [|y|y], c as [|z|z]; simpl;
    try discriminate; try reflexivity.
  - rewrite !Z.compare_lt_iff. lia.
  - intros H1 H2.
    exact (@transitivity _ _ (@StrictOrder_Transitive _ _
             String_as_OT.lt_strorder) x y z H1 H2).
Qed.

Lemma value_lt_leb (a b : value) : value_lt a b -> value_leb a b = true.
Proof. unfold value_lt, value_leb. now intros ->. Qed.

Lemma value_leb_trans (a b c : value) :
  value_leb a b = true -> value_leb b c = true -> value_leb a c = true.
Proof.
  intros H1 H2.
  destruct (value_leb_true _ _ H1) as [->|L1]; [exact H2|].
  destruct (value_leb_true _ _ H2) as [<-|L2]; [exact H1|].
  apply value_lt_leb. now apply value_lt_trans with b.
Qed.

Lemma insert_key_sorted (k : value) (l : list value) :
  StronglySorted (fun a b => value_leb a b = true) l ->
  StronglySorted (fun a b => value_leb a b = true) (insert_key k l).
Proof.
  induction l as [|k' l IH]; simpl; intros Hs.
  - repeat constructor.
  - inversion Hs as [|? ? Hs' Hall]; subst.
    destruct (value_leb k k') eqn:E.
    + constructor; [assumption|].
      constructor; [assumption|].
      eapply Forall_impl; [|exact Hall]. simpl.
      intros x Hx. now apply value_leb_trans with k'.
    + constructor; [now apply IH|].
      eapply Permutation_Forall.
      * symmetry. apply insert_key_perm.
      * constructor; [|assumption].
        now apply value_lt_leb, value_leb_false.
Qed.

Lemma sort_keys_sorted (l : list value) :
  StronglySorted (fun a b => value_leb a b = true) (sort_keys l).
Proof.
  induction l as [|k l IH]; simpl.
  - constructor.
  - now apply insert_key_sorted.
Qed.

Lemma sorted_strict (l : list value) :
  NoDup l ->
  StronglySorted (fun a b => value_leb a b = true) l ->
  StronglySorted value_lt l.
Proof.
  induction l as [|k l IH]; intros Hn Hs; [constructor|].
  inversion Hn as [|? ? Hk Hn']; subst.
  inversion Hs as [|? ? Hs' Hall]; subst.
  constructor; [now apply IH|].
  rewrite Forall_forall in *. intros x Hx.
  destruct (value_leb_true _ _ (Hall x Hx)) as [->|L]; [contradiction|].
  exact L.
Qed.

(** [groupby] enumerates the groups by ascending key. *)
Lemma group_keys_sorted (d : DataFrame) (tc : string) :
  StronglySorted value_lt (group_keys d tc).
Proof.
  apply sorted_strict; [apply group_keys_NoDup|apply sort_keys_sorted].
Qed.

(** ** C4: the order of the keys *)

Lemma top_of_kept (S : sorter) (n : Z) (s : Series) :
  top_of S n s = index_tolist (kept S n s).
Proof. unfold top_of, kept. now destruct (n =? -1). Qed.

Lemma kept_prefix (S : sorter) (n : Z) (s : Series) :
  exists rest, S s = (kept S n s ++ rest)%list.
Proof.
  unfold kept. destruct (n =? -1).
  - exists []. now rewrite app_nil_r.
  - apply head_prefix.
Qed.

Lemma descending_prefix (s t : Series) :
  descending (s ++ t)%list -> descending s.
Proof.
  unfold descending. induction s as [|e s IH]; simpl; intros H.
  - constructor.
  - inversion H as [|? ? Hs Hall]; subst.
    constructor; [now apply IH|].
    rewrite Forall_app in Hall. tauto.
Qed.

Lemma ranked_by_top_of (S : sorter) (n : Z) (s : Series) :
  ranked_by S s (top_of S n s).
Proof.
  exists (kept S n s).
  destruct (kept_prefix S n s) as [rest Hr].
  split; [symmetry; apply top_of_kept|].
  split; [|split].
  - intros e He. apply (Permutation_in _ (sort_desc_perm S s)).
    rewrite Hr. apply in_or_app. now left.
  - apply descending_prefix with rest. rewrite <- Hr.
    apply sort_desc_sorted.
  - intros Hst m. exists (filter (fun e => snd e =? m) rest).
    rewrite <- filter_app, <- Hr. symmetry. apply Hst.
Qed.

(** C4, as stated, fails whatever the sort: the two frames below hold the
    same two rows in opposite orders, one row per ticker, so the measures
    tie and the aggregation gives the same Series for both (its index is
    sorted); a sort sees the same input twice and cannot return the
    tickers in the order of first appearance for both frames.  The stable
    sort returns A before B for the frame that shows B first. *)
Lemma C4_counterexample :
  first_seen_keys b_then_a "ticker" = [VStr "B"; VStr "A"]
  /\ first_seen_keys a_then_b "ticker" = [VStr "A"; VStr "B"]
  /\ history_counts b_then_a "ticker" "date" = [(VStr "A", 1); (VStr "B", 1)]
  /\ history_counts a_then_b "ticker" "date" = [(VStr "A", 1); (VStr "B", 1)]
  /\ rank_by_history stable_sorter b_then_a "ticker" "date" 50
     = Ok (b_then_a, [VStr "A"; VStr "B"])
  /\ ~ (exists S : sorter,
          (exists sub, rank_by_history S b_then_a "ticker" "date" 50
                       = Ok (sub, first_seen_keys b_then_a "ticker"))
          /\ (exists sub, rank_by_history S a_then_b "ticker" "date" 50
                          = Ok (sub, first_seen_keys a_then_b "ticker"))).
Proof.
  repeat (split; [reflexivity|]).
  intros [S [[sub1 H1] [sub2 H2]]].
  rewrite rank_by_history_eq in H1, H2.
  change (has_column "ticker" b_then_a) with true in H1.
  change (has_column "ticker" a_then_b) with true in H2.
  change (history_counts b_then_a "ticker" "date")
    with [(VStr "A", 1); (VStr "B", 1)] in H1.
  change (history_counts a_then_b "ticker" "date")
    with [(VStr "A", 1); (VStr "B", 1)] in H2.
  change (first_seen_keys b_then_a "ticker")
    with [VStr "B"; VStr "A"] in H1.
  change (first_seen_keys a_then_b "ticker")
    with [VStr "A"; VStr "B"] in H2.
  simpl in H1, H2.
  injection H1 as _ E1. injection H2 as _ E2.
  rewrite E1 in E2. discriminate E2.
Qed.

(** C4, amended. With the key column present, the key list of either
    ranker is in descending order of measure.  Among groups of equal
    measure the order is the one the sort leaves, and [sort_values] is
    called with a sort that promises none; under a stable sort they come
    in the order in which the aggregation enumerates the groups, which is
    ascending key order, not the order of first appearance in the input. *)
Theorem C4_descending_order (S : sorter) (d : DataFrame) (tc dc : string)
  (ncc : option string) (n : Z) :
  In tc (columns d) ->
  (exists sub top,
     rank_by_history S d tc dc n = Ok (sub, top)
     /\ ranked_by S (history_counts d tc dc) top
     /\ index_tolist (history_counts d tc dc) = group_keys d tc)
  /\ (forall totals, news_totals d tc ncc = Ok totals ->
      exists sub top tot,
        rank_by_news S d tc ncc n = Ok (sub, top, tot)
        /\ ranked_by S totals top
        /\ index_tolist totals = group_keys d tc)
  /\ StronglySorted value_lt (group_keys d tc).
Proof.
  intros Hc. apply has_column_In in Hc. split; [|split].
  - exists (subset_of d tc n (top_of S n (history_counts d tc dc))),
      (top_of S n (history_counts d tc dc)). split; [|split].
    + rewrite rank_by_history_eq, Hc. reflexivity.
    + apply ranked_by_top_of.
    + apply history_counts_index.
  - intros totals Ht.
    destruct (rank_by_news_ok S d tc ncc n totals Hc Ht) as [tot [_ Hr]].
    exists (subset_of d tc n (top_of S n totals)), (top_of S n totals), tot.
    split; [exact Hr|]. split; [apply ranked_by_top_of|].
    apply (news_totals_index d tc ncc totals Ht).
  - apply group_keys_sorted.
Qed.

Lemma C4_descending_order_witness :
  exists sub top ms,
    rank_by_history stable_sorter prices "ticker" "date" 2 = Ok (sub, top)
    /\ index_tolist ms = top
    /\ incl ms (history_counts prices "ticker" "date")
    /\ descending ms
    /\ forall m, exists rest,
         filter (fun e => snd e =? m) (history_counts prices "ticker" "date")
         = (filter (fun e => snd e =? m) ms ++ rest)%list.
Proof.
  destruct (C4_descending_order stable_sorter prices "ticker" "date" None 2)
    as [[sub [top [Hr [[ms [H1 [H2 [H3 H4]]]] _]]]] _].
  - simpl. left. reflexivity.
  - exists sub, top, ms. repeat split; try assumption.
    apply H4, stable_sorter_stable.
Defined.

(** ** The examples of the specification *)

Example top_two_by_history :
  rank_by_history stable_sorter prices "ticker" "date" 2
  = Ok (rows_in prices "ticker" [VStr "B"; VStr "A"], [VStr "B"; VStr "A"]).
Proof. reflexivity. Qed.

Example row_count_without_dates :
  rank_by_history stable_sorter prices "ticker" "day" 1
  = Ok (rows_in prices "ticker" [VStr "B"], [VStr "B"]).
Proof. reflexivity. Qed.

Example all_news :
  rank_by_news stable_sorter news "ticker" None (-1)
  = Ok (news, [VStr "Q"; VStr "P"], [(VStr "Q", 20); (VStr "P", 10)]).
Proof. reflexivity. Qed.

Example top_zero :
  rank_by_history stable_sorter prices "ticker" "date" 0
  = Ok (mkFrame ["ticker"; "date"] [], []).
Proof. reflexivity. Qed.

Example more_than_there_are :
  rank_by_history stable_sorter prices "ticker" "date" 10
  = Ok (rows_in prices "ticker" [VStr "B"; VStr "A"; VStr "C"],
        [VStr "B"; VStr "A"; VStr "C"]).
Proof. reflexivity. Qed.

Example all_but_two :
  rank_by_history stable_sorter prices "ticker" "date" (-2)
  = Ok (rows_in prices "ticker" [VStr "B"], [VStr "B"]).
Proof. reflexivity. Qed.

Example key_error_before_the_sum :
  news_totals mixed_news "ticker" None = Raise TypeError
  /\ rank_by_news stable_sorter mixed_news "symbol" None 2
     = Raise (KeyError "ticker_col 'symbol' not found in DataFrame columns").
Proof. split; reflexivity. Qed.

(** * Further properties of the rankers *)

(** ** Series with distinct labels *)

Lemma get_Some_In (k : value) (s : Series) (m : Z) :
  get k s = Some m -> In (k, m) s.
Proof.
  induction s as [|[k' m'] s IH]; simpl; [discriminate|].
  destruct (value_eqb k' k) eqn:E.
  - apply value_eqb_eq in E. subst. intros H. injection H as ->. now left.
  - intros H. right. now apply IH.
Qed.

Lemma get_of_In (k : value) (s : Series) (m : Z) :
  NoDup (index_tolist s) -> In (k, m) s -> get k s = Some m.
Proof.
  induction s as [|[k' m'] s IH]; simpl; [tauto|].
  intros Hn Hin. inversion Hn as [|? ? Hk Hn']; subst.
  destruct Hin as [E|Hin].
  - injection E as -> ->. now rewrite value_eqb_refl.
  - destruct (value_eqb k' k) eqn:E.
    + apply value_eqb_eq in E. subst. exfalso. apply Hk.
      unfold index_tolist. apply in_map_iff. now exists (k, m).
    + now apply IH.
Qed.

Lemma loc_index (s t : Series) :
  NoDup (index_tolist s) -> incl t s -> loc s (index_tolist t) = Ok t.
Proof.
  intros Hn. induction t as [|[k m] t IH]; intros Hin; simpl;
    [reflexivity|].
  rewrite (get_of_In k s m Hn) by (apply Hin; now left).
  rewrite IH; [reflexivity|].
  intros x Hx. apply Hin. now right.
Qed.

Lemma descending_app (s t : Series) (a b : value * Z) :
  descending (s ++ t)%list -> In a s -> In b t -> snd b <= snd a.
Proof.
  unfold descending. induction s as [|e s IH]; simpl; intros H Ha Hb;
    [tauto|].
  inversion H as [|? ? Hs Hall]; subst.
  destruct Ha as [->|Ha]; [|now apply IH].
  rewrite Forall_forall in Hall. apply Hall. apply in_or_app. now right.
Qed.

Lemma kept_incl (S : sorter) (n : Z) (s : Series) : incl (kept S n s) s.
Proof.
  intros e He. destruct (kept_prefix S n s) as [rest Hr].
  apply (Permutation_in _ (sort_desc_perm S s)).
  rewrite Hr. apply in_or_app. now left.
Qed.

Lemma kept_descending (S : sorter) (n : Z) (s : Series) :
  descending (kept S n s).
Proof.
  destruct (kept_prefix S n s) as [rest Hr].
  apply descending_prefix with rest. rewrite <- Hr. apply sort_desc_sorted.
Qed.

Lemma in_index (k : value) (s : Series) :
  In k (index_tolist s) <-> exists m, In (k, m) s.
Proof.
  unfold index_tolist. rewrite in_map_iff. split.
  - intros [[k' m] [E H]]. simpl in E. subst. now exists m.
  - intros [m H]. now exists (k, m).
Qed.

(** Whatever is kept ranks at least as high as whatever is not. *)
Lemma kept_outranks (S : sorter) (n : Z) (s : Series)
  (k k' : value) (m m' : Z) :
  NoDup (index_tolist s) ->
  In k (top_of S n s) -> ~ In k' (top_of S n s) ->
  get k s = Some m -> get k' s = Some m' ->
  m' <= m.
Proof.
  intros Hn Hk Hk' Hm Hm'.
  rewrite top_of_kept in Hk, Hk'.
  destruct (kept_prefix S n s) as [rest Hr].
  apply in_index in Hk. destruct Hk as [m0 Hk].
  assert (m0 = m).
  { pose proof (get_of_In k s m0 Hn (kept_incl S n s _ Hk)). congruence. }
  subst m0.
  assert (Hin' : In (k', m') rest).
  { apply get_Some_In in Hm'.
    apply (Permutation_in _ (Permutation_sym (sort_desc_perm S s))) in Hm'.
    rewrite Hr in Hm'. apply in_app_or in Hm'.
    destruct Hm' as [Hm'|Hm']; [|exact Hm'].
    exfalso. apply Hk'. apply in_index. now exists m'. }
  apply (descending_app (kept S n s) rest (k, m) (k', m'));
    [|assumption|assumption].
  rewrite <- Hr. apply sort_desc_sorted.
Qed.

Lemma history_counts_NoDup (d : DataFrame) (tc dc : string) :
  NoDup (index_tolist (history_counts d tc dc)).
Proof. rewrite history_counts_index. apply group_keys_NoDup. Qed.

Lemma news_totals_NoDup (d : DataFrame) (tc : string)
  (ncc : option string) (totals : Series) :
  news_totals d tc ncc = Ok totals -> NoDup (index_tolist totals).
Proof.
  intros H. rewrite (news_totals_index d tc ncc totals H).
  apply group_keys_NoDup.
Qed.

(** ** X1: the keys kept are the highest ranked *)

(** X1. With the key column present, for every [n], no group left out of
    the returned key list has a higher measure than a group in it: the
    list holds the groups of highest measure.  Both rankers. *)
Theorem X1_top_is_highest (S : sorter) (d : DataFrame) (tc dc : string)
  (ncc : option string) (n : Z) :
  In tc (columns d) ->
  (exists sub top,
     rank_by_history S d tc dc n = Ok (sub, top)
     /\ forall k k' m m',
          In k top -> In k' (group_keys d tc) -> ~ In k' top ->
          get k (history_counts d tc dc) = Some m ->
          get k' (history_counts d tc dc) = Some m' ->
          m' <= m)
  /\ (forall totals, news_totals d tc ncc = Ok totals ->
      exists sub top tot,
        rank_by_news S d tc ncc n = Ok (sub, top, tot)
        /\ forall k k' m m',
             In k top -> In k' (group_keys d tc) -> ~ In k' top ->
             get k totals = Some m -> get k' totals = Some m' ->
             m' <= m).
Proof.
  intros Hc. apply has_column_In in Hc. split.
  - exists (subset_of d tc n (top_of S n (history_counts d tc dc))),
      (top_of S n (history_counts d tc dc)). split.
    + rewrite rank_by_history_eq, Hc. reflexivity.
    + intros k k' m m' Hk _ Hk' Hm Hm'.
      apply (kept_outranks S n (history_counts d tc dc) k k' m m');
        try assumption.
      apply history_counts_NoDup.
  - intros totals Ht.
    destruct (rank_by_news_ok S d tc ncc n totals Hc Ht) as [tot [_ Hr]].
    exists (subset_of d tc n (top_of S n totals)), (top_of S n totals), tot.
    split; [exact Hr|].
    intros k k' m m' Hk _ Hk' Hm Hm'.
    apply (kept_outranks S n totals k k' m m'); try assumption.
    apply (news_totals_NoDup d tc ncc totals Ht).
Qed.

Lemma X1_top_is_highest_witness :
  (exists sub top,
     rank_by_history stable_sorter prices "ticker" "date" 1 = Ok (sub, top)
     /\ forall k k' m m',
          In k top -> In k' (group_keys prices "ticker") -> ~ In k' top ->
          get k (history_counts prices "ticker" "date") = Some m ->
          get k' (history_counts prices "ticker" "date") = Some m' ->
          m' <= m)
  /\ (exists sub top tot,
        rank_by_news stable_sorter news "ticker" None 1 = Ok (sub, top, tot)
        /\ forall k k' m m',
             In k top -> In k' (group_keys news "ticker") -> ~ In k' top ->
             get k [(VStr "P", 10); (VStr "Q", 20)] = Some m ->
             get k' [(VStr "P", 10); (VStr "Q", 20)] = Some m' ->
             m' <= m).
Proof.
  split.
  - destruct (X1_top_is_highest stable_sorter prices "ticker" "date" None 1)
      as [H _].
    + simpl. left. reflexivity.
    + exact H.
  - destruct (X1_top_is_highest stable_sorter news "ticker" "date" None 1)
      as [_ H].
    + simpl. left. reflexivity.
    + apply (H [(VStr "P", 10); (VStr "Q", 20)]). reflexivity.
Defined.

(** ** X2: the returned totals are the head of the ranking *)

Lemma head_nonneg (n : Z) (s : Series) :
  0 <= n -> head n s = firstn (Z.to_nat n) s.
Proof. intros H. unfold head. destruct (Z.leb_spec 0 n); [reflexivity|lia]. Qed.

Lemma head_negative (n : Z) (s : Series) :
  n < 0 -> head n s = firstn (List.length s - Z.to_nat (- n)) s.
Proof. intros H. unfold head. destruct (Z.leb_spec 0 n); [lia|reflexivity]. Qed.

(** X2. Whenever the news ranker returns, its third component is the
    sorted totals cut exactly where the key list is cut
    ([totals.loc[top_tickers]] gives back the entries [head(n)] kept): all
    of [totals.sort_values(ascending=False)] for [n = -1], its first [n]
    entries for [n >= 0], all but its last [-n] entries for [n < -1].  So
    it is in descending order and made of entries of the aggregated
    totals. *)
Theorem X2_totals_are_ranking_head (S : sorter) (d : DataFrame)
  (tc : string) (ncc : option string) (n : Z) (totals : Series) :
  In tc (columns d) ->
  news_totals d tc ncc = Ok totals ->
  exists sub top tot,
    rank_by_news S d tc ncc n = Ok (sub, top, tot)
    /\ tot = (if n =? -1 then S totals else head n (S totals))
    /\ (0 <= n -> tot = firstn (Z.to_nat n) (S totals))
    /\ (n < -1 ->
        tot = firstn (List.length totals - Z.to_nat (- n)) (S totals))
    /\ index_tolist tot = top
    /\ descending tot
    /\ incl tot totals.
Proof.
  intros Hc Ht. apply has_column_In in Hc.
  destruct (rank_by_news_ok S d tc ncc n totals Hc Ht) as [tot [Hl Hr]].
  rewrite top_of_kept in Hl.
  rewrite (loc_index totals (kept S n totals)
             (news_totals_NoDup d tc ncc totals Ht) (kept_incl S n totals))
    in Hl.
  injection Hl as <-.
  exists (subset_of d tc n (top_of S n totals)), (top_of S n totals),
    (kept S n totals).
  split; [exact Hr|]. split; [reflexivity|].
  split; [|split; [|split; [|split]]].
  - intros Hn. unfold kept.
    destruct (Z.eqb_spec n (-1)); [lia|]. now apply head_nonneg.
  - intros Hn. unfold kept.
    destruct (Z.eqb_spec n (-1)); [lia|].
    rewrite head_negative by lia.
    now rewrite (Permutation_length (sort_desc_perm S totals)).
  - symmetry. apply top_of_kept.
  - apply kept_descending.
  - apply kept_incl.
Qed.

Lemma X2_totals_are_ranking_head_witness :
  exists sub top tot,
    rank_by_news stable_sorter news "ticker" None 1 = Ok (sub, top, tot)
    /\ tot = (if 1 =? -1 then stable_sorter [(VStr "P", 10); (VStr "Q", 20)]
              else head 1 (stable_sorter [(VStr "P", 10); (VStr "Q", 20)]))
    /\ (0 <= 1 ->
        tot = firstn (Z.to_nat 1)
                (stable_sorter [(VStr "P", 10); (VStr "Q", 20)]))
    /\ (1 < -1 ->
        tot = firstn (List.length [(VStr "P", 10); (VStr "Q", 20)]
                      - Z.to_nat (- 1))
                (stable_sorter [(VStr "P", 10); (VStr "Q", 20)]))
    /\ index_tolist tot = top
    /\ descending tot
    /\ incl tot [(VStr "P", 10); (VStr "Q", 20)].
Proof.
  apply (X2_totals_are_ranking_head stable_sorter news "ticker" None 1).
  - simpl. left. reflexivity.
  - reflexivity.
Defined.

(** ** X3: a larger [n] only adds keys *)

Lemma firstn_le_prefix {A : Type} (a b : nat) (l : list A) :
  (a <= b)%nat -> exists extra, firstn b l = (firstn a l ++ extra)%list.
Proof.
  intros H. exists (skipn a (firstn b l)).
  rewrite <- (firstn_skipn a (firstn b l)) at 1.
  rewrite firstn_firstn. now rewrite Nat.min_l by assumption.
Qed.

Lemma top_of_monotone (S : sorter) (n n' : Z) (s : Series) :
  0 <= n <= n' ->
  exists extra, top_of S n' s = (top_of S n s ++ extra)%list.
Proof.
  intros [H0 Hle]. rewrite !top_of_head by lia.
  apply firstn_le_prefix. lia.
Qed.

Lemma rows_in_incl (d : DataFrame) (tc : string) (top extra : list value) :
  incl (rows (rows_in d tc top)) (rows (rows_in d tc (top ++ extra))).
Proof.
  intros r. simpl. rewrite !filter_In. intros [Hr Hk]. split; [exact Hr|].
  apply isin_In. apply in_or_app. left. now apply isin_In.
Qed.

(** X3. With the key column present and [0 <= n <= n'], the key list for
    [n] is the beginning of the key list for [n'], and every row of the
    subset for [n] is a row of the subset for [n'].  Both rankers. *)
Theorem X3_larger_n_adds_keys (S : sorter) (d : DataFrame) (tc dc : string)
  (ncc : option string) (n n' : Z) :
  In tc (columns d) ->
  0 <= n <= n' ->
  (exists top extra,
     rank_by_history S d tc dc n = Ok (rows_in d tc top, top)
     /\ rank_by_history S d tc dc n'
        = Ok (rows_in d tc (top ++ extra), (top ++ extra)%list)
     /\ incl (rows (rows_in d tc top)) (rows (rows_in d tc (top ++ extra))))
  /\ (forall totals, news_totals d tc ncc = Ok totals ->
      exists top extra tot tot',
        rank_by_news S d tc ncc n = Ok (rows_in d tc top, top, tot)
        /\ rank_by_news S d tc ncc n'
           = Ok (rows_in d tc (top ++ extra), (top ++ extra)%list, tot')
        /\ incl (rows (rows_in d tc top))
             (rows (rows_in d tc (top ++ extra)))).
Proof.
  intros Hc Hn. apply has_column_In in Hc.
  assert (H1 : n <> -1) by lia. assert (H2 : n' <> -1) by lia. split.
  - destruct (top_of_monotone S n n' (history_counts d tc dc) Hn)
      as [extra He].
    exists (top_of S n (history_counts d tc dc)), extra.
    rewrite !rank_by_history_eq, Hc. simpl.
    rewrite !subset_of_rows_in by assumption. rewrite He.
    repeat split. apply rows_in_incl.
  - intros totals Ht.
    destruct (top_of_monotone S n n' totals Hn) as [extra He].
    destruct (rank_by_news_ok S d tc ncc n totals Hc Ht) as [tot [_ Hr]].
    destruct (rank_by_news_ok S d tc ncc n' totals Hc Ht) as [tot' [_ Hr']].
    exists (top_of S n totals), extra, tot, tot'.
    rewrite Hr, Hr'. rewrite !subset_of_rows_in by assumption. rewrite He.
    repeat split. apply rows_in_incl.
Qed.

Lemma X3_larger_n_adds_keys_witness :
  (exists top extra,
     rank_by_history stable_sorter prices "ticker" "date" 1
     = Ok (rows_in prices "ticker" top, top)
     /\ rank_by_history stable_sorter prices "ticker" "date" 2
        = Ok (rows_in prices "ticker" (top ++ extra), (top ++ extra)%list)
     /\ incl (rows (rows_in prices "ticker" top))
          (rows (rows_in prices "ticker" (top ++ extra))))
  /\ (exists top extra tot tot',
        rank_by_news stable_sorter news "ticker" None 1
        = Ok (rows_in news "ticker" top, top, tot)
        /\ rank_by_news stable_sorter news "ticker" None 2
           = Ok (rows_in news "ticker" (top ++ extra),
                 (top ++ extra)%list, tot')
        /\ incl (rows (rows_in news "ticker" top))
             (rows (rows_in news "ticker" (top ++ extra)))).
Proof.
  split.
  - destruct (X3_larger_n_adds_keys stable_sorter prices "ticker" "date"
                None 1 2) as [H _].
    + simpl. left. reflexivity.
    + lia.
    + exact H.
  - destruct (X3_larger_n_adds_keys stable_sorter news "ticker" "date"
                None 1 2) as [_ H].
    + simpl. left. reflexivity.
    + lia.
    + apply (H [(VStr "P", 10); (VStr "Q", 20)]). reflexivity.
Defined.

(** ** X4: [n = 0] *)

Lemma rows_in_nil (d : DataFrame) (tc : string) :
  rows_in d tc [] = mkFrame (columns d) [].
Proof.
  unfold rows_in. f_equal.
  induction (rows d) as [|r rs IH]; simpl; [reflexivity|exact IH].
Qed.

(** X4. With the key column present, [n = 0] is no error: the key list is
    empty, the subset has the columns of the input and no row, and the
    totals of the news ranker are empty. *)
Theorem X4_zero_selects_nothing (S : sorter) (d : DataFrame)
  (tc dc : string) (ncc : option string) :
  In tc (columns d) ->
  rank_by_history S d tc dc 0 = Ok (mkFrame (columns d) [], [])
  /\ (forall totals, news_totals d tc ncc = Ok totals ->
      rank_by_news S d tc ncc 0 = Ok (mkFrame (columns d) [], [], [])).
Proof.
  intros Hc. apply has_column_In in Hc. split.
  - rewrite rank_by_history_eq, Hc. unfold top_of, subset_of, head.
    simpl. now rewrite rows_in_nil.
  - intros totals Ht.
    destruct (rank_by_news_ok S d tc ncc 0 totals Hc Ht) as [tot [Hl Hr]].
    rewrite Hr. unfold top_of, subset_of, head in *. simpl in *.
    injection Hl as <-. now rewrite rows_in_nil.
Qed.

Lemma X4_zero_selects_nothing_witness :
  rank_by_history stable_sorter prices "ticker" "date" 0
    = Ok (mkFrame (columns prices) [], [])
  /\ rank_by_news stable_sorter news "ticker" None 0
     = Ok (mkFrame (columns news) [], [], []).
Proof.
  split.
  - apply (X4_zero_selects_nothing stable_sorter prices "ticker" "date" None).
    simpl. left. reflexivity.
  - destruct (X4_zero_selects_nothing stable_sorter news "ticker" "date" None)
      as [_ H].
    + simpl. left. reflexivity.
    + apply (H [(VStr "P", 10); (VStr "Q", 20)]). reflexivity.
Defined.

(** ** X5: every key is a key of the subset *)

Lemma subset_of_columns (d : DataFrame) (tc : string) (n : Z)
  (top : list value) :
  columns (subset_of d tc n top) = columns d.
Proof. unfold subset_of. now destruct (n =? -1). Qed.

Lemma subset_of_incl (d : DataFrame) (tc : string) (n : Z)
  (top : list value) :
  incl (rows (subset_of d tc n top)) (rows d).
Proof.
  unfold subset_of. destruct (n =? -1); [apply incl_refl|].
  intros r. simpl. rewrite filter_In. tauto.
Qed.

Lemma top_of_in_group_keys (S : sorter) (d : DataFrame) (tc : string)
  (n : Z) (s : Series) (k : value) :
  index_tolist s = group_keys d tc ->
  In k (top_of S n s) -> In k (group_keys d tc).
Proof. intros Hi Hk. rewrite <- Hi. now apply (top_of_incl S n s). Qed.

Lemma key_has_row (S : sorter) (d : DataFrame) (tc : string) (n : Z)
  (s : Series) (k : value) :
  index_tolist s = group_keys d tc ->
  In k (top_of S n s) ->
  k <> VNull
  /\ exists r, In r (rows (subset_of d tc n (top_of S n s)))
               /\ cell d tc r = k.
Proof.
  intros Hi Hk.
  pose proof (top_of_in_group_keys S d tc n s k Hi Hk) as Hg.
  apply group_keys_In in Hg. destruct Hg as [Hnn Hcol].
  split; [exact Hnn|].
  unfold column in Hcol. apply in_map_iff in Hcol.
  destruct Hcol as [r [Hr Hin]]. exists r. split; [|exact Hr].
  unfold subset_of. destruct (n =? -1); [exact Hin|].
  simpl. apply filter_In. split; [exact Hin|].
  apply isin_In. now rewrite Hr.
Qed.

(** X5. With the key column present, for every [n] (negative ones too),
    the subset has the column labels of the input and only rows of the
    input, and every returned key is a value (never a missing cell) that is
    the key of at least one row of the subset: no key is returned without
    rows.  Both rankers. *)
Theorem X5_keys_have_rows (S : sorter) (d : DataFrame) (tc dc : string)
  (ncc : option string) (n : Z) :
  In tc (columns d) ->
  (exists sub top,
     rank_by_history S d tc dc n = Ok (sub, top)
     /\ keys_live_in d sub tc top)
  /\ (forall totals, news_totals d tc ncc = Ok totals ->
      exists sub top tot,
        rank_by_news S d tc ncc n = Ok (sub, top, tot)
        /\ keys_live_in d sub tc top).
Proof.
  intros Hc. apply has_column_In in Hc. split.
  - exists (subset_of d tc n (top_of S n (history_counts d tc dc))),
      (top_of S n (history_counts d tc dc)). split.
    + rewrite rank_by_history_eq, Hc. reflexivity.
    + split; [apply subset_of_columns|].
      split; [apply subset_of_incl|].
      intros k. apply key_has_row, history_counts_index.
  - intros totals Ht.
    destruct (rank_by_news_ok S d tc ncc n totals Hc Ht) as [tot [_ Hr]].
    exists (subset_of d tc n (top_of S n totals)), (top_of S n totals), tot.
    split; [exact Hr|].
    split; [apply subset_of_columns|].
    split; [apply subset_of_incl|].
    intros k. apply key_has_row.
    apply (news_totals_index d tc ncc totals Ht).
Qed.

Lemma X5_keys_have_rows_witness :
  (exists sub top,
     rank_by_history stable_sorter prices "ticker" "date" (-2)
     = Ok (sub, top)
     /\ keys_live_in prices sub "ticker" top)
  /\ (exists sub top tot,
        rank_by_news stable_sorter news "ticker" None 1 = Ok (sub, top, tot)
        /\ keys_live_in news sub "ticker" top).
Proof.
  split.
  - destruct (X5_keys_have_rows stable_sorter prices "ticker" "date" None
                (-2)) as [H _].
    + simpl. left. reflexivity.
    + exact H.
  - destruct (X5_keys_have_rows stable_sorter news "ticker" "date" None 1)
      as [_ H].
    + simpl. left. reflexivity.
    + apply (H [(VStr "P", 10); (VStr "Q", 20)]). reflexivity.
Defined.

(** ** X6: no row with a key *)

Lemma sorter_nil (S : sorter) : S [] = [].
Proof.
  apply Permutation_nil. symmetry. apply sort_desc_perm.
Qed.

Lemma top_of_nil (S : sorter) (n : Z) : top_of S n [] = [].
Proof.
  unfold top_of, head. rewrite sorter_nil.
  destruct (n =? -1); [reflexivity|].
  destruct (0 <=? n); now rewrite firstn_nil.
Qed.

Lemma index_nil (s : Series) : index_tolist s = [] -> s = [].
Proof. destruct s; [reflexivity|discriminate]. Qed.

Lemma no_key_no_group (d : DataFrame) (tc : string) :
  (forall r, In r (rows d) -> cell d tc r = VNull) ->
  group_keys d tc = [].
Proof.
  intros H. unfold group_keys, first_seen_keys, column.
  assert (E : filter notnull (map (cell d tc) (rows d)) = []).
  { induction (rows d) as [|r rs IH]; [reflexivity|]. simpl.
    rewrite (H r (or_introl eq_refl)). simpl. apply IH.
    intros x Hx. apply H. now right. }
  now rewrite E.
Qed.

(** X6. With the key column present, a frame in which no row has a key
    (all key cells missing, or no row at all) gives an empty key list for
    every [n], without error; the subset has no row, except for [n = -1],
    which hands back the whole frame; the news totals are empty. *)
Theorem X6_no_keys_no_groups (S : sorter) (d : DataFrame) (tc dc : string)
  (ncc : option string) (n : Z) :
  In tc (columns d) ->
  (forall r, In r (rows d) -> cell d tc r = VNull) ->
  rank_by_history S d tc dc n
    = Ok (if n =? -1 then d else mkFrame (columns d) [], [])
  /\ (forall totals, news_totals d tc ncc = Ok totals ->
      rank_by_news S d tc ncc n
      = Ok (if n =? -1 then d else mkFrame (columns d) [], [], [])).
Proof.
  intros Hc Hnull. apply has_column_In in Hc.
  pose proof (no_key_no_group d tc Hnull) as Hg. split.
  - rewrite rank_by_history_eq, Hc.
    pose proof (history_counts_index d tc dc) as Hi. rewrite Hg in Hi.
    apply index_nil in Hi. rewrite Hi. simpl. rewrite top_of_nil.
    unfold subset_of. now rewrite rows_in_nil.
  - intros totals Ht.
    pose proof (news_totals_index d tc ncc totals Ht) as Hi.
    rewrite Hg in Hi. apply index_nil in Hi. subst totals.
    destruct (rank_by_news_ok S d tc ncc n [] Hc Ht) as [tot [Hl Hr]].
    rewrite Hr. rewrite top_of_nil in *. simpl in Hl. injection Hl as <-.
    unfold subset_of. now rewrite rows_in_nil.
Qed.

Lemma X6_no_keys_no_groups_witness :
  rank_by_history stable_sorter (mkFrame ["ticker"; "date"] [[VNull; VInt 1]])
    "ticker" "date" 3
  = Ok (mkFrame ["ticker"; "date"] [], [])
  /\ rank_by_news stable_sorter (mkFrame ["ticker"] []) "ticker" None (-1)
     = Ok (mkFrame ["ticker"] [], [], []).
Proof.
  split.
  - apply (X6_no_keys_no_groups stable_sorter
             (mkFrame ["ticker"; "date"] [[VNull; VInt 1]])
             "ticker" "date" None 3).
    + simpl. left. reflexivity.
    + simpl. intros r [<-|[]]. reflexivity.
  - destruct (X6_no_keys_no_groups stable_sorter (mkFrame ["ticker"] [])
                "ticker" "date" None (-1)) as [_ H].
    + simpl. left. reflexivity.
    + simpl. intros r [].
    + apply (H []). reflexivity.
Defined.

(** ** X7: optional columns that are not there *)

Lemma rank_by_news_ext (S : sorter) (d : DataFrame) (tc : string)
  (ncc ncc' : option string) (n : Z) :
  news_totals d tc ncc = news_totals d tc ncc' ->
  rank_by_news S d tc ncc n = rank_by_news S d tc ncc' n.
Proof.
  intros E. destruct (has_column tc d) eqn:Hc.
  - destruct (news_totals d tc ncc') as [totals|e] eqn:Ht.
    + destruct (rank_by_news_ok S d tc ncc n totals Hc E) as [t [Hl Hr]].
      destruct (rank_by_news_ok S d tc ncc' n totals Hc Ht)
        as [t' [Hl' Hr']].
      assert (t' = t) by congruence. subst t'. now rewrite Hr, Hr'.
    + rewrite (rank_by_news_raise S d tc ncc n e Hc E).
      now rewrite (rank_by_news_raise S d tc ncc' n e Hc Ht).
  - rewrite !rank_by_news_missing by assumption. reflexivity.
Qed.

(** X7. An optional column that is not there is no error and changes
    nothing: a [news_count_col] that is the empty string or is not a column
    of the frame gives exactly the result of [news_count_col=None], and any
    two [date_col] that are not columns of the frame give the same
    result. *)
Theorem X7_absent_optional_column (S : sorter) (d : DataFrame)
  (tc dc dc' c : string) (n : Z) :
  (c = "" \/ ~ In c (columns d) ->
   rank_by_news S d tc (Some c) n = rank_by_news S d tc None n)
  /\ (~ In dc (columns d) -> ~ In dc' (columns d) ->
      rank_by_history S d tc dc n = rank_by_history S d tc dc' n).
Proof.
  split.
  - intros Hc. apply rank_by_news_ext. unfold news_totals.
    replace (truthy (Some c) && has_column (name_of (Some c)) d)
      with false; [reflexivity|].
    simpl. destruct Hc as [->|Hc]; [reflexivity|].
    rewrite (not_has_column c d Hc). now rewrite andb_false_r.
  - intros H H'. rewrite !rank_by_history_eq. unfold history_counts.
    now rewrite (not_has_column dc d H), (not_has_column dc' d H').
Qed.

Lemma X7_absent_optional_column_witness :
  rank_by_news stable_sorter news "ticker" (Some "count") 1
    = rank_by_news stable_sorter news "ticker" None 1
  /\ rank_by_history stable_sorter news "ticker" "date" 1
     = rank_by_history stable_sorter news "ticker" "day" 1.
Proof.
  destruct (X7_absent_optional_column stable_sorter news "ticker"
              "date" "day" "count" 1) as [H1 H2].
  split.
  - apply H1. right. simpl.
    intros [E|[E|[E|[E|[]]]]]; discriminate E.
  - apply H2; simpl; intros [E|[E|[E|[E|[]]]]]; discriminate E.
Defined.

(** ** X8: both rankers on row counts *)

(** X8. When both rankers fall back on counting rows (the date column is
    not in the frame, no count column is named and there is no column
    "news_count"), they return the same subset and the same keys, and the
    news totals are the row counts of the kept groups. *)
Theorem X8_rankers_agree_on_row_counts (S : sorter) (d : DataFrame)
  (tc dc : string) (ncc : option string) (n : Z) :
  In tc (columns d) ->
  ~ In dc (columns d) ->
  (forall c, ~ names_column d ncc c) ->
  ~ In "news_count" (columns d) ->
  exists sub top tot,
    rank_by_history S d tc dc n = Ok (sub, top)
    /\ rank_by_news S d tc ncc n = Ok (sub, top, tot)
    /\ index_tolist tot = top
    /\ forall k m, In (k, m) tot ->
         m = Z.of_nat (List.length
                         (filter (fun r => value_eqb (cell d tc r) k)
                            (rows d))).
Proof.
  intros Hc Hdc Hno Hnc. apply has_column_In in Hc.
  assert (Ht : news_totals d tc ncc = Ok (groupby_size d tc)).
  { unfold news_totals. rewrite (no_name_falls_through d ncc Hno).
    now rewrite (not_has_column _ d Hnc). }
  assert (Hh : history_counts d tc dc = groupby_size d tc).
  { unfold history_counts. now rewrite (not_has_column dc d Hdc). }
  destruct (rank_by_news_ok S d tc ncc n _ Hc Ht) as [tot [Hl Hr]].
  exists (subset_of d tc n (top_of S n (groupby_size d tc))),
    (top_of S n (groupby_size d tc)), tot.
  split; [rewrite rank_by_history_eq, Hc, Hh; reflexivity|].
  split; [exact Hr|].
  destruct (loc_ok (groupby_size d tc) _
              (top_of_incl S n (groupby_size d tc)))
    as [tot' [Hl' [Hi Hf]]].
  assert (tot' = tot) by congruence. subst tot'.
  split; [exact Hi|].
  intros k m Hin. rewrite Forall_forall in Hf.
  pose proof (Hf (k, m) Hin) as Hg. simpl in Hg.
  assert (Hk : In k (group_keys d tc)).
  { apply (top_of_in_group_keys S d tc n (groupby_size d tc));
      [apply aggregate_index|].
    rewrite <- Hi. apply in_index. now exists m. }
  unfold groupby_size in Hg. rewrite aggregate_get in Hg by assumption.
  injection Hg as <-. reflexivity.
Qed.

Lemma X8_rankers_agree_on_row_counts_witness :
  exists sub top tot,
    rank_by_history stable_sorter prices "ticker" "day" 2 = Ok (sub, top)
    /\ rank_by_news stable_sorter prices "ticker" None 2 = Ok (sub, top, tot)
    /\ index_tolist tot = top
    /\ forall k m, In (k, m) tot ->
         m = Z.of_nat (List.length
                         (filter (fun r => value_eqb (cell prices "ticker" r) k)
                            (rows prices))).
Proof.
  apply (X8_rankers_agree_on_row_counts stable_sorter prices "ticker" "day"
           None 2).
  - simpl. left. reflexivity.
  - simpl. intros [E|[E|[]]]; discriminate E.
  - intros c [E _]. discriminate E.
  - simpl. intros [E|[E|[]]]; discriminate E.
Defined.

(** ** X9: bounds of the history measure *)

Lemma filter_le_length {A : Type} (f : A -> bool) (l : list A) :
  (List.length (filter f l) <= List.length l)%nat.
Proof.
  induction l as [|x l IH]; simpl; [lia|].
  destruct (f x); simpl; lia.
Qed.

Lemma dedup_le_length (l : list value) :
  (List.length (dedup l) <= List.length l)%nat.
Proof.
  induction l as [|v l IH]; simpl; [lia|].
  pose proof (filter_le_length (fun w => negb (value_eqb w v)) (dedup l)).
  lia.
Qed.

Lemma nunique_bounds (cells : list value) :
  0 <= nunique cells <= Z.of_nat (List.length cells).
Proof.
  unfold nunique.
  pose proof (dedup_le_length (filter notnull cells)).
  pose proof (filter_le_length notnull cells). lia.
Qed.

Lemma nunique_positive (cells : list value) (v : value) :
  In v cells -> v <> VNull -> 1 <= nunique cells.
Proof.
  intros Hin Hv. unfold nunique.
  assert (H : In v (dedup (filter notnull cells))).
  { apply dedup_In, filter_In. split; [exact Hin|]. now apply notnull_true. }
  destruct (dedup (filter notnull cells)); [destruct H|]. simpl. lia.
Qed.

Lemma group_not_empty (d : DataFrame) (tc : string) (k : value) :
  In k (group_keys d tc) ->
  exists r, In r (group_rows d tc k).
Proof.
  intros Hk. apply group_keys_In in Hk. destruct Hk as [_ Hk].
  unfold column in Hk. apply in_map_iff in Hk. destruct Hk as [r [E Hr]].
  exists r. unfold group_rows. apply filter_In. split; [exact Hr|].
  now apply value_eqb_eq.
Qed.

(** X9. For every group, the measure of the history ranker lies between 0
    and the number of rows of the group, which is at least 1; it is that
    number of rows when the date column is not in the frame, and at least 1
    when the date column is there and some row of the group has a date. *)
Theorem X9_history_measure_bounds (d : DataFrame) (tc dc : string)
  (k : value) :
  In k (group_keys d tc) ->
  exists m size,
    get k (history_counts d tc dc) = Some m
    /\ size = Z.of_nat (List.length
                          (filter (fun r => value_eqb (cell d tc r) k)
                             (rows d)))
    /\ 1 <= size
    /\ 0 <= m <= size
    /\ (~ In dc (columns d) -> m = size)
    /\ (In dc (columns d) ->
        (exists r, In r (rows d) /\ cell d tc r = k /\ cell d dc r <> VNull) ->
        1 <= m).
Proof.
  intros Hk.
  destruct (group_not_empty d tc k Hk) as [r0 Hr0].
  assert (Hsize : 1 <= Z.of_nat (List.length (group_rows d tc k))).
  { destruct (group_rows d tc k); [destruct Hr0|]. simpl. lia. }
  unfold history_counts. destruct (has_column dc d) eqn:Hdc.
  - exists (nunique (map (cell d dc) (group_rows d tc k))),
      (Z.of_nat (List.length (group_rows d tc k))).
    unfold groupby_nunique. rewrite aggregate_get by assumption.
    split; [reflexivity|]. split; [reflexivity|]. split; [exact Hsize|].
    pose proof (nunique_bounds (map (cell d dc) (group_rows d tc k))) as Hb.
    rewrite length_map in Hb. split; [exact Hb|]. split.
    + intros Habs. apply not_has_column in Habs. congruence.
    + intros _ [r [Hr [Hkey Hdate]]].
      apply nunique_positive with (cell d dc r); [|exact Hdate].
      apply in_map. unfold group_rows. apply filter_In.
      split; [exact Hr|]. now apply value_eqb_eq.
  - exists (Z.of_nat (List.length (group_rows d tc k))),
      (Z.of_nat (List.length (group_rows d tc k))).
    unfold groupby_size. rewrite aggregate_get by assumption.
    split; [reflexivity|]. split; [reflexivity|]. split; [exact Hsize|].
    split; [lia|]. split; [reflexivity|].
    intros Hin. apply has_column_In in Hin. congruence.
Qed.

Lemma X9_history_measure_bounds_witness :
  exists m size,
    get (VStr "A") (history_counts prices "ticker" "date") = Some m
    /\ size = Z.of_nat (List.length
                          (filter (fun r => value_eqb (cell prices "ticker" r)
                                              (VStr "A"))
                             (rows prices)))
    /\ 1 <= size
    /\ 0 <= m <= size
    /\ (~ In "date" (columns prices) -> m = size)
    /\ (In "date" (columns prices) ->
        (exists r, In r (rows prices) /\ cell prices "ticker" r = VStr "A"
                   /\ cell prices "date" r <> VNull) ->
        1 <= m).
Proof.
  apply (X9_history_measure_bounds prices "ticker" "date" (VStr "A")).
  vm_compute. left. reflexivity.
Defined.

(** ** X10: the measures add up *)

Lemma series_total_graph_add (f g : value -> Z) (keys : list value) :
  series_total (map (fun k => (k, f k + g k)) keys)
  = series_total (map (fun k => (k, f k)) keys)
    + series_total (map (fun k => (k, g k)) keys).
Proof. induction keys as [|k ks IH]; simpl; [reflexivity|]. lia. Qed.

Lemma series_total_indicator (x : value) (w : Z) (keys : list value) :
  NoDup keys ->
  series_total (map (fun k => (k, if value_eqb x k then w else 0)) keys)
  = if isin x keys then w else 0.
Proof.
  induction keys as [|k ks IH]; intros Hn; simpl; [reflexivity|].
  inversion Hn as [|? ? Hk Hn']; subst. rewrite IH by assumption.
  destruct (value_eqb x k) eqn:E; simpl; [|reflexivity].
  apply value_eqb_eq in E. subst.
  destruct (isin k ks) eqn:Hi; [|lia].
  apply isin_In in Hi. contradiction.
Qed.

(** Groups with distinct labels split the rows that carry one of the
    labels: the group weights add up to the weight of those rows. *)
Lemma groups_partition (key : list value -> value)
  (wt : list value -> Z) (keys : list value) (rs : list (list value)) :
  NoDup keys ->
  series_total
    (map (fun k =>
            (k, total_weight wt (filter (fun r => value_eqb (key r) k) rs)))
       keys)
  = total_weight wt (filter (fun r => isin (key r) keys) rs).
Proof.
  intros Hn. induction rs as [|r rs IH].
  - simpl. induction keys as [|k ks IHk]; simpl; [reflexivity|].
    inversion Hn; subst. rewrite IHk by assumption. reflexivity.
  - rewrite (map_ext _
      (fun k => (k, (if value_eqb (key r) k then wt r else 0)
                    + total_weight wt
                        (filter (fun r => value_eqb (key r) k) rs)))).
    + rewrite (series_total_graph_add
                 (fun k => if value_eqb (key r) k then wt r else 0)
                 (fun k => total_weight wt
                             (filter (fun r => value_eqb (key r) k) rs))).
      rewrite IH, series_total_indicator by assumption.
      simpl. destruct (isin (key r) keys); simpl; lia.
    + intros k. simpl. destruct (value_eqb (key r) k); reflexivity.
Qed.

Lemma total_weight_length (rs : list (list value)) :
  total_weight (fun _ => 1) rs = Z.of_nat (List.length rs).
Proof.
  induction rs as [|r rs IH]; [reflexivity|].
  change (total_weight (fun _ => 1) (r :: rs))
    with (1 + total_weight (fun _ => 1) rs).
  rewrite IH.
  change (List.length (r :: rs)) with (Datatypes.S (List.length rs)).
  lia.
Qed.

Lemma total_weight_sum (d : DataFrame) (c : string)
  (rs : list (list value)) :
  total_weight (fun r => num (cell d c r)) rs
  = sum_cells (map (cell d c) rs).
Proof.
  induction rs as [|r rs IH]; simpl; [reflexivity|]. now rewrite IH.
Qed.

Lemma isin_group_keys (d : DataFrame) (tc : string) (r : list value) :
  In r (rows d) ->
  isin (cell d tc r) (group_keys d tc) = notnull (cell d tc r).
Proof.
  intros Hr. apply eq_true_iff_eq.
  rewrite isin_In, group_keys_In, notnull_true. split; [tauto|].
  intros H. split; [exact H|]. unfold column. now apply in_map.
Qed.

Lemma rows_in_all_keys (S : sorter) (d : DataFrame) (tc : string)
  (s : Series) :
  index_tolist s = group_keys d tc ->
  rows (rows_in d tc (top_of S (-1) s)) = keyed_rows d tc.
Proof.
  intros Hi. unfold rows_in, keyed_rows. simpl.
  apply filter_ext_in. intros r Hr.
  rewrite <- (isin_group_keys d tc r Hr). apply eq_true_iff_eq.
  rewrite !isin_In, <- Hi.
  split; apply Permutation_in; [|symmetry]; apply top_of_all.
Qed.

Lemma aggregate_total (d : DataFrame) (tc : string)
  (wt : list value -> Z) :
  series_total (aggregate d tc (total_weight wt))
  = total_weight wt (keyed_rows d tc).
Proof.
  unfold aggregate, group_rows, keyed_rows.
  rewrite (groups_partition (cell d tc) wt)
    by apply group_keys_NoDup.
  f_equal. apply filter_ext_in. intros r Hr. now apply isin_group_keys.
Qed.

Lemma aggregate_ext (d : DataFrame) (tc : string)
  (f g : list (list value) -> Z) :
  (forall rs, f rs = g rs) -> aggregate d tc f = aggregate d tc g.
Proof.
  intros H. unfold aggregate. apply map_ext. intros k. now rewrite H.
Qed.

Lemma groupby_size_total (d : DataFrame) (tc : string) :
  series_total (groupby_size d tc)
  = Z.of_nat (List.length (keyed_rows d tc)).
Proof.
  unfold groupby_size.
  rewrite (aggregate_ext d tc _ (total_weight (fun _ => 1)))
    by (intros rs; symmetry; apply total_weight_length).
  rewrite aggregate_total. apply total_weight_length.
Qed.

(** X10. When a ranker counts rows, grouping loses no row that has a key
    and counts none twice: the measures of all the groups add up to the
    number of rows whose key is not missing.  This is so for the history
    ranker when the date column is not in the frame, and for the news
    ranker when no count column is named and there is no column
    "news_count". *)
Theorem X10_row_counts_add_up (d : DataFrame) (tc dc : string)
  (ncc : option string) :
  (~ In dc (columns d) ->
   series_total (history_counts d tc dc)
   = Z.of_nat (List.length (keyed_rows d tc)))
  /\ ((forall c, ~ names_column d ncc c) ->
      ~ In "news_count" (columns d) ->
      exists totals,
        news_totals d tc ncc = Ok totals
        /\ series_total totals
           = Z.of_nat (List.length (keyed_rows d tc))).
Proof.
  split.
  - intros Hdc. unfold history_counts.
    rewrite (not_has_column dc d Hdc). apply groupby_size_total.
  - intros Hno Hnc. exists (groupby_size d tc). split.
    + unfold news_totals. rewrite (no_name_falls_through d ncc Hno).
      now rewrite (not_has_column _ d Hnc).
    + apply groupby_size_total.
Qed.

Lemma X10_row_counts_add_up_witness :
  series_total (history_counts prices "ticker" "day")
    = Z.of_nat (List.length (keyed_rows prices "ticker"))
  /\ exists totals,
       news_totals prices "ticker" None = Ok totals
       /\ series_total totals
          = Z.of_nat (List.length (keyed_rows prices "ticker")).
Proof.
  destruct (X10_row_counts_add_up prices "ticker" "day" None) as [H1 H2].
  split.
  - apply H1. simpl. intros [E|[E|[]]]; discriminate E.
  - apply H2.
    + intros c [E _]. discriminate E.
    + simpl. intros [E|[E|[]]]; discriminate E.
Defined.

(** ** X11: the returned totals add up to the kept rows *)

Lemma news_totals_weight (d : DataFrame) (tc : string)
  (ncc : option string) (totals : Series) :
  news_totals d tc ncc = Ok totals ->
  totals = aggregate d tc (total_weight (news_weight d ncc)).
Proof.
  unfold news_totals, sum_by, news_weight, groupby_sum, groupby_size.
  destruct (truthy ncc && has_column (name_of ncc) d).
  - destruct (numeric_column d (name_of ncc)); 
    [|destruct (existsb _ _); discriminate].
    intros E. injection E as <-. apply aggregate_ext.
    intros rs. symmetry. apply total_weight_sum.
  - destruct (has_column "news_count" d).
    + destruct (numeric_column d "news_count"); 
      [|destruct (existsb _ _); discriminate].
      intros E. injection E as <-. apply aggregate_ext.
      intros rs. symmetry. apply total_weight_sum.
    + intros E. injection E as <-. apply aggregate_ext.
      intros rs. symmetry. apply total_weight_length.
Qed.

Lemma graph_of_incl (g : value -> Z) (l : list value) (t : Series) :
  incl t (map (fun k => (k, g k)) l) ->
  t = map (fun k => (k, g k)) (index_tolist t).
Proof.
  induction t as [|[k m] t IH]; intros Hin; [reflexivity|].
  simpl. rewrite <- IH by (intros x Hx; apply Hin; now right).
  assert (H : In (k, m) (map (fun k => (k, g k)) l)) by (apply Hin; now left).
  apply in_map_iff in H. destruct H as [k' [E _]].
  injection E as -> <-. reflexivity.
Qed.

(** X11. When the news ranker counts rows (no count column is named and
    there is no column "news_count"), the values of the returned totals
    add up to the number of rows whose key is returned: for [n] other than
    -1 that is the number of rows of the returned subset, for [n = -1] the
    number of rows of the frame whose key is not missing. *)
Theorem X11_totals_add_up_to_subset (S : sorter) (d : DataFrame)
  (tc : string) (ncc : option string) (n : Z) :
  In tc (columns d) ->
  (forall c, ~ names_column d ncc c) ->
  ~ In "news_count" (columns d) ->
  exists sub top tot,
    rank_by_news S d tc ncc n = Ok (sub, top, tot)
    /\ series_total tot
       = Z.of_nat (List.length (rows (rows_in d tc top)))
    /\ (n <> -1 -> series_total tot = Z.of_nat (List.length (rows sub)))
    /\ (n = -1 ->
        series_total tot = Z.of_nat (List.length (keyed_rows d tc))).
Proof.
  intros Hc Hno Hnc. apply has_column_In in Hc.
  assert (Ht : news_totals d tc ncc = Ok (groupby_size d tc)).
  { unfold news_totals. rewrite (no_name_falls_through d ncc Hno).
    now rewrite (not_has_column _ d Hnc). }
  set (totals := groupby_size d tc) in *.
  pose proof (news_totals_NoDup d tc ncc totals Ht) as Hnd.
  destruct (rank_by_news_ok S d tc ncc n totals Hc Ht) as [tot [Hl Hr]].
  rewrite top_of_kept in Hl.
  rewrite (loc_index totals (kept S n totals) Hnd (kept_incl S n totals))
    in Hl.
  injection Hl as <-.
  assert (Hsum : series_total (kept S n totals)
                 = Z.of_nat
                     (List.length (rows (rows_in d tc (top_of S n totals))))).
  { pose proof (kept_incl S n totals) as Hin.
    unfold totals at 2 in Hin. unfold groupby_size, aggregate in Hin.
    apply graph_of_incl in Hin.
    rewrite <- top_of_kept in Hin. rewrite Hin.
    unfold group_rows.
    rewrite (map_ext _
      (fun k => (k, total_weight (fun _ => 1)
                      (filter (fun r => value_eqb (cell d tc r) k)
                         (rows d)))))
      by (intros k; now rewrite total_weight_length).
    rewrite (groups_partition (cell d tc) (fun _ => 1))
      by (apply top_of_NoDup; exact Hnd).
    apply total_weight_length. }
  exists (subset_of d tc n (top_of S n totals)), (top_of S n totals),
    (kept S n totals).
  split; [exact Hr|]. split; [exact Hsum|]. split.
  - intros Hn. now rewrite subset_of_rows_in.
  - intros ->. rewrite Hsum. f_equal. f_equal.
    apply rows_in_all_keys. apply aggregate_index.
Qed.

Lemma X11_totals_add_up_to_subset_witness :
  exists sub top tot,
    rank_by_news stable_sorter prices "ticker" None 1 = Ok (sub, top, tot)
    /\ series_total tot
       = Z.of_nat (List.length (rows (rows_in prices "ticker" top)))
    /\ (1 <> -1 -> series_total tot = Z.of_nat (List.length (rows sub)))
    /\ (1 = -1 ->
        series_total tot
        = Z.of_nat (List.length (keyed_rows prices "ticker"))).
Proof.
  apply (X11_totals_add_up_to_subset stable_sorter prices "ticker" None 1).
  - simpl. left. reflexivity.
  - intros c [E _]. discriminate E.
  - simpl. intros [E|[E|[]]]; discriminate E.
Defined.

(** ** The subset as an input *)

Lemma group_rows_rows_in (d : DataFrame) (tc : string) (top : list value)
  (k : value) :
  In k top ->
  group_rows (rows_in d tc top) tc k = group_rows d tc k.
Proof.
  intros Hk. unfold group_rows, rows_in. simpl.
  change (cell (mkFrame (columns d)
                  (filter (fun r => isin (cell d tc r) top) (rows d))) tc)
    with (cell d tc).
  induction (rows d) as [|r rs IH]; [reflexivity|]. simpl.
  destruct (isin (cell d tc r) top) eqn:Hi; simpl.
  - now rewrite IH.
  - destruct (value_eqb (cell d tc r) k) eqn:E; [|exact IH].
    apply value_eqb_eq in E. rewrite E in Hi.
    apply isin_In in Hk. congruence.
Qed.

Lemma group_keys_rows_in (d : DataFrame) (tc : string) (top : list value)
  (k : value) :
  incl top (group_keys d tc) ->
  In k (group_keys (rows_in d tc top) tc) <-> In k top.
Proof.
  intros Hincl. rewrite group_keys_In. unfold column, rows_in. simpl.
  change (cell (mkFrame (columns d)
                  (filter (fun r => isin (cell d tc r) top) (rows d))) tc)
    with (cell d tc).
  rewrite in_map_iff. split.
  - intros [_ [r [E Hr]]]. apply filter_In in Hr. destruct Hr as [_ Hi].
    apply isin_In in Hi. now rewrite E in Hi.
  - intros Hk. pose proof (Hincl k Hk) as Hg.
    apply group_keys_In in Hg. destruct Hg as [Hnn Hcol].
    split; [exact Hnn|].
    unfold column in Hcol. apply in_map_iff in Hcol.
    destruct Hcol as [r [E Hr]]. exists r. split; [exact E|].
    apply filter_In. split; [exact Hr|]. apply isin_In. now rewrite E.
Qed.

Lemma numeric_column_rows_in (d : DataFrame) (tc c : string)
  (top : list value) :
  numeric_column d c = true ->
  numeric_column (rows_in d tc top) c = true.
Proof.
  unfold numeric_column, column, rows_in. simpl.
  change (cell (mkFrame (columns d)
                  (filter (fun r => isin (cell d tc r) top) (rows d))) c)
    with (cell d c).
  rewrite !forallb_forall. intros H v Hv. apply H.
  apply in_map_iff in Hv. destruct Hv as [r [E Hr]].
  apply filter_In in Hr. apply in_map_iff. exists r. tauto.
Qed.

Lemma news_totals_rows_in (d : DataFrame) (tc : string)
  (ncc : option string) (top : list value) (totals : Series) :
  news_totals d tc ncc = Ok totals ->
  exists totals', news_totals (rows_in d tc top) tc ncc = Ok totals'.
Proof.
  unfold news_totals, sum_by.
  change (has_column (name_of ncc) (rows_in d tc top))
    with (has_column (name_of ncc) d).
  change (has_column "news_count" (rows_in d tc top))
    with (has_column "news_count" d).
  destruct (truthy ncc && has_column (name_of ncc) d).
  - destruct (numeric_column d (name_of ncc)) eqn:N; 
    [|destruct (existsb _ _); discriminate].
    intros _. rewrite (numeric_column_rows_in d tc _ top N). eauto.
  - destruct (has_column "news_count" d); [|eauto].
    destruct (numeric_column d "news_count") eqn:N; 
      [|destruct (existsb _ _); discriminate].
    intros _. rewrite (numeric_column_rows_in d tc _ top N). eauto.
Qed.

Lemma history_counts_rows_in (d : DataFrame) (tc dc : string)
  (top : list value) (k : value) :
  incl top (group_keys d tc) ->
  In k top ->
  get k (history_counts (rows_in d tc top) tc dc)
  = get k (history_counts d tc dc).
Proof.
  intros Hincl Hk.
  assert (Hsub : In k (group_keys (rows_in d tc top) tc))
    by now apply group_keys_rows_in.
  unfold history_counts.
  change (has_column dc (rows_in d tc top)) with (has_column dc d).
  unfold groupby_nunique, groupby_size.
  destruct (has_column dc d);
    rewrite !aggregate_get by auto;
    now rewrite group_rows_rows_in.
Qed.

Lemma news_totals_rows_in_get (d : DataFrame) (tc : string)
  (ncc : option string) (top : list value) (totals totals' : Series)
  (k : value) :
  incl top (group_keys d tc) ->
  In k top ->
  news_totals d tc ncc = Ok totals ->
  news_totals (rows_in d tc top) tc ncc = Ok totals' ->
  get k totals' = get k totals.
Proof.
  intros Hincl Hk Ht Ht'.
  assert (Hsub : In k (group_keys (rows_in d tc top) tc))
    by now apply group_keys_rows_in.
  rewrite (news_totals_weight _ tc ncc totals' Ht').
  rewrite (news_totals_weight d tc ncc totals Ht).
  rewrite !aggregate_get by auto.
  now rewrite group_rows_rows_in.
Qed.

Lemma top_of_incl_group_keys (S : sorter) (d : DataFrame) (tc : string)
  (n : Z) (s : Series) :
  index_tolist s = group_keys d tc ->
  incl (top_of S n s) (group_keys d tc).
Proof.
  intros Hi k Hk. now apply (top_of_in_group_keys S d tc n s).
Qed.

(** ** X12: the kept groups keep their measure *)

(** X12. With the key column present, for every [n], ranking the returned
    subset again finds each returned key with the measure it had in the
    whole frame: the subset holds all the rows of the groups kept.  Both
    rankers. *)
Theorem X12_measure_kept_in_subset (S : sorter) (d : DataFrame)
  (tc dc : string) (ncc : option string) (n : Z) :
  In tc (columns d) ->
  (exists sub top,
     rank_by_history S d tc dc n = Ok (sub, top)
     /\ forall k, In k top ->
          exists m, get k (history_counts d tc dc) = Some m
                    /\ get k (history_counts sub tc dc) = Some m)
  /\ (forall totals, news_totals d tc ncc = Ok totals ->
      exists sub top tot totals',
        rank_by_news S d tc ncc n = Ok (sub, top, tot)
        /\ news_totals sub tc ncc = Ok totals'
        /\ forall k, In k top ->
             exists m, get k totals = Some m /\ get k totals' = Some m).
Proof.
  intros Hc. apply has_column_In in Hc. split.
  - set (top := top_of S n (history_counts d tc dc)).
    exists (subset_of d tc n top), top. split.
    + rewrite rank_by_history_eq, Hc. reflexivity.
    + intros k Hk.
      pose proof (top_of_incl_group_keys S d tc n _
                    (history_counts_index d tc dc)) as Hincl.
      destruct (get_In k (history_counts d tc dc)) as [m [Hm _]].
      { rewrite history_counts_index. now apply Hincl. }
      exists m. split; [exact Hm|].
      unfold subset_of. destruct (n =? -1); [exact Hm|].
      now rewrite history_counts_rows_in.
  - intros totals Ht.
    set (top := top_of S n totals).
    pose proof (top_of_incl_group_keys S d tc n totals
                  (news_totals_index d tc ncc totals Ht)) as Hincl.
    destruct (rank_by_news_ok S d tc ncc n totals Hc Ht) as [tot [_ Hr]].
    assert (Hsub : exists totals',
               news_totals (subset_of d tc n top) tc ncc = Ok totals'
               /\ forall k, In k top -> get k totals' = get k totals).
    { unfold subset_of. destruct (n =? -1).
      - exists totals. split; [exact Ht|reflexivity].
      - destruct (news_totals_rows_in d tc ncc top totals Ht)
          as [totals' Ht'].
        exists totals'. split; [exact Ht'|].
        intros k Hk.
        now apply (news_totals_rows_in_get d tc ncc top totals totals'). }
    destruct Hsub as [totals' [Ht' Hget]].
    exists (subset_of d tc n top), top, tot, totals'.
    split; [exact Hr|]. split; [exact Ht'|].
    intros k Hk.
    destruct (get_In k totals) as [m [Hm _]].
    { rewrite (news_totals_index d tc ncc totals Ht). now apply Hincl. }
    exists m. split; [exact Hm|]. now rewrite Hget.
Qed.

Lemma X12_measure_kept_in_subset_witness :
  (exists sub top,
     rank_by_history stable_sorter prices "ticker" "date" 2 = Ok (sub, top)
     /\ forall k, In k top ->
          exists m, get k (history_counts prices "ticker" "date") = Some m
                    /\ get k (history_counts sub "ticker" "date") = Some m)
  /\ (exists sub top tot totals',
        rank_by_news stable_sorter news "ticker" None 1 = Ok (sub, top, tot)
        /\ news_totals sub "ticker" None = Ok totals'
        /\ forall k, In k top ->
             exists m, get k [(VStr "P", 10); (VStr "Q", 20)] = Some m
                       /\ get k totals' = Some m).
Proof.
  split.
  - destruct (X12_measure_kept_in_subset stable_sorter prices "ticker"
                "date" None 2) as [H _].
    + simpl. left. reflexivity.
    + exact H.
  - destruct (X12_measure_kept_in_subset stable_sorter news "ticker"
                "date" None 1) as [_ H].
    + simpl. left. reflexivity.
    + apply (H [(VStr "P", 10); (VStr "Q", 20)]). reflexivity.
Defined.

(** ** X13: ranking the subset again *)

Lemma rerun_on_subset (S : sorter) (d : DataFrame) (tc : string) (n : Z)
  (s s' : Series) :
  0 <= n ->
  index_tolist s = group_keys d tc ->
  index_tolist s' = group_keys (rows_in d tc (top_of S n s)) tc ->
  Permutation (top_of S n s') (top_of S n s)
  /\ rows_in (rows_in d tc (top_of S n s)) tc (top_of S n s')
     = rows_in d tc (top_of S n s).
Proof.
  intros Hn Hi Hi'. set (top := top_of S n s) in *.
  assert (Hincl : incl top (group_keys d tc))
    by now apply top_of_incl_group_keys.
  assert (Hnd : NoDup top).
  { apply top_of_NoDup. rewrite Hi. apply group_keys_NoDup. }
  assert (Hp : Permutation (group_keys (rows_in d tc top) tc) top).
  { apply NoDup_Permutation; [apply group_keys_NoDup|exact Hnd|].
    intros k. now apply group_keys_rows_in. }
  assert (Hlen : (List.length top <= Z.to_nat n)%nat).
  { subst top. rewrite top_of_head by assumption.
    rewrite length_firstn. lia. }
  assert (Hp' : Permutation (top_of S n s') top).
  { rewrite top_of_head by assumption.
    rewrite firstn_all2.
    - rewrite sorted_index_perm, Hi'. exact Hp.
    - rewrite (Permutation_length (sorted_index_perm S s')), Hi'.
      rewrite (Permutation_length Hp). exact Hlen. }
  split; [exact Hp'|].
  unfold rows_in at 1. simpl. unfold rows_in. f_equal.
  apply filter_all. intros r Hr. apply filter_In in Hr.
  destruct Hr as [_ Hr]. apply isin_In. apply isin_In in Hr.
  apply (Permutation_in _ (Permutation_sym Hp')).
  exact Hr.
Qed.

(** X13. With the key column present and [n >= 0], ranking the returned
    subset with the same arguments returns that subset unchanged and the
    same keys (in an order that may differ among ties): selecting the top
    [n] a second time changes nothing.  Both rankers. *)
Theorem X13_rerun_changes_nothing (S : sorter) (d : DataFrame)
  (tc dc : string) (ncc : option string) (n : Z) :
  In tc (columns d) ->
  0 <= n ->
  (exists sub top top',
     rank_by_history S d tc dc n = Ok (sub, top)
     /\ rank_by_history S sub tc dc n = Ok (sub, top')
     /\ Permutation top' top)
  /\ (forall totals, news_totals d tc ncc = Ok totals ->
      exists sub top tot top' tot',
        rank_by_news S d tc ncc n = Ok (sub, top, tot)
        /\ rank_by_news S sub tc ncc n = Ok (sub, top', tot')
        /\ Permutation top' top).
Proof.
  intros Hc Hn. apply has_column_In in Hc.
  assert (Hne : n <> -1) by lia. split.
  - set (s := history_counts d tc dc).
    set (s' := history_counts (rows_in d tc (top_of S n s)) tc dc).
    destruct (rerun_on_subset S d tc n s s' Hn
                (history_counts_index d tc dc)
                (history_counts_index _ tc dc)) as [Hp Hrows].
    exists (rows_in d tc (top_of S n s)), (top_of S n s), (top_of S n s').
    split; [|split; [|exact Hp]].
    + rewrite rank_by_history_eq, Hc. simpl.
      now rewrite subset_of_rows_in.
    + rewrite rank_by_history_eq.
      change (has_column tc (rows_in d tc (top_of S n s)))
        with (has_column tc d).
      rewrite Hc. simpl. rewrite subset_of_rows_in by assumption.
      fold s'. now rewrite Hrows.
  - intros totals Ht.
    destruct (news_totals_rows_in d tc ncc (top_of S n totals) totals Ht)
      as [totals' Ht'].
    destruct (rerun_on_subset S d tc n totals totals' Hn
                (news_totals_index d tc ncc totals Ht)
                (news_totals_index _ tc ncc totals' Ht')) as [Hp Hrows].
    destruct (rank_by_news_ok S d tc ncc n totals Hc Ht) as [tot [_ Hr]].
    destruct (rank_by_news_ok S (rows_in d tc (top_of S n totals)) tc ncc n
                totals' Hc Ht') as [tot' [_ Hr']].
    exists (rows_in d tc (top_of S n totals)), (top_of S n totals), tot,
      (top_of S n totals'), tot'.
    split; [|split; [|exact Hp]].
    + rewrite Hr. now rewrite subset_of_rows_in.
    + rewrite Hr'. rewrite subset_of_rows_in by assumption.
      now rewrite Hrows.
Qed.

Lemma X13_rerun_changes_nothing_witness :
  (exists sub top top',
     rank_by_history stable_sorter prices "ticker" "date" 2 = Ok (sub, top)
     /\ rank_by_history stable_sorter sub "ticker" "date" 2 = Ok (sub, top')
     /\ Permutation top' top)
  /\ (exists sub top tot top' tot',
        rank_by_news stable_sorter news "ticker" None 1 = Ok (sub, top, tot)
        /\ rank_by_news stable_sorter sub "ticker" None 1
           = Ok (sub, top', tot')
        /\ Permutation top' top).
Proof.
  split.
  - destruct (X13_rerun_changes_nothing stable_sorter prices "ticker"
                "date" None 2) as [H _].
    + simpl. left. reflexivity.
    + lia.
    + exact H.
  - destruct (X13_rerun_changes_nothing stable_sorter news "ticker"
                "date" None 1) as [_ H].
    + simpl. left. reflexivity.
    + lia.
    + apply (H [(VStr "P", 10); (VStr "Q", 20)]). reflexivity.
Defined.

(** ** X14: the order of the rows does not matter to the ranking *)

Lemma value_lt_irrefl (a : value) : ~ value_lt a a.
Proof.
  unfold value_lt. destruct a as [|x|x]; simpl; try discriminate.
  - rewrite Z.compare_refl. discriminate.
  - intros H.
    exact (@irreflexivity _ _ (@StrictOrder_Irreflexive _ _
             String_as_OT.lt_strorder) x H).
Qed.

(** A strictly sorted list is determined by its members. *)
Lemma sorted_unique (l l' : list value) :
  StronglySorted value_lt l -> StronglySorted value_lt l' ->
  (forall k, In k l <-> In k l') ->
  l = l'.
Proof.
  revert l'. induction l as [|a l IH]; intros l' Hs Hs' Hin.
  - destruct l' as [|b l']; [reflexivity|].
    destruct (proj2 (Hin b) (or_introl eq_refl)).
  - destruct l' as [|b l'].
    { destruct (proj1 (Hin a) (or_introl eq_refl)). }
    inversion Hs as [|? ? Hl Ha]; subst.
    inversion Hs' as [|? ? Hl' Hb]; subst.
    rewrite Forall_forall in Ha, Hb.
    assert (a = b).
    { destruct (proj1 (Hin a) (or_introl eq_refl)) as [E|Hab]; [now subst|].
      destruct (proj2 (Hin b) (or_introl eq_refl)) as [E|Hba]; [now subst|].
      exfalso. apply (value_lt_irrefl a).
      apply value_lt_trans with b; auto. }
    subst b. f_equal. apply IH; try assumption.
    intros k. split; intros Hk.
    + destruct (proj1 (Hin k) (or_intror Hk)) as [E|H]; [|exact H].
      subst k. destruct (value_lt_irrefl a (Ha a Hk)).
    + destruct (proj2 (Hin k) (or_intror Hk)) as [E|H]; [|exact H].
      subst k. destruct (value_lt_irrefl a (Hb a Hk)).
Qed.

Lemma filter_perm {A : Type} (f : A -> bool) (l l' : list A) :
  Permutation l l' -> Permutation (filter f l) (filter f l').
Proof.
  induction 1 as [|x l l' _ IH|x y l|l l' l'' _ IH1 _ IH2]; simpl.
  - constructor.
  - destruct (f x); [now constructor|exact IH].
  - destruct (f x), (f y); try reflexivity. apply perm_swap.
  - now transitivity (filter f l').
Qed.

Lemma nunique_perm (l l' : list value) :
  Permutation l l' -> nunique l = nunique l'.
Proof.
  intros H. unfold nunique. f_equal. apply Permutation_length.
  apply NoDup_Permutation; try apply dedup_NoDup.
  intros v. rewrite !dedup_In, !filter_In.
  split; intros [Hv Hn]; (split; [|exact Hn]).
  - now apply (Permutation_in _ H).
  - now apply (Permutation_in _ (Permutation_sym H)).
Qed.

Lemma cell_reordered (d d' : DataFrame) (c : string) (r : list value) :
  columns d' = columns d -> cell d' c r = cell d c r.
Proof. intros E. unfold cell. now rewrite E. Qed.

Lemma has_column_reordered (d d' : DataFrame) (c : string) :
  columns d' = columns d -> has_column c d' = has_column c d.
Proof. intros E. unfold has_column. now rewrite E. Qed.

Lemma column_reordered (d d' : DataFrame) (c : string) :
  reordered d d' -> Permutation (column d' c) (column d c).
Proof.
  intros [Hc Hp]. unfold column.
  rewrite (map_ext _ _ (fun r => cell_reordered d d' c r Hc)).
  now apply Permutation_map.
Qed.

Lemma group_keys_reordered (d d' : DataFrame) (tc : string) :
  reordered d d' -> group_keys d' tc = group_keys d tc.
Proof.
  intros H. apply sorted_unique; try apply group_keys_sorted.
  intros k. rewrite !group_keys_In.
  pose proof (column_reordered d d' tc H) as Hp.
  split; intros [Hn Hk]; (split; [exact Hn|]).
  - now apply (Permutation_in _ Hp).
  - now apply (Permutation_in _ (Permutation_sym Hp)).
Qed.

Lemma group_rows_reordered (d d' : DataFrame) (tc : string) (k : value) :
  reordered d d' -> Permutation (group_rows d' tc k) (group_rows d tc k).
Proof.
  intros [Hc Hp]. unfold group_rows.
  rewrite (filter_ext _ (fun r => value_eqb (cell d tc r) k)).
  - now apply filter_perm.
  - intros r. now rewrite (cell_reordered d d' tc r Hc).
Qed.

(** An aggregate that does not look at the order of the rows of a group
    is the same for a reordered frame. *)
Lemma aggregate_reordered (d d' : DataFrame) (tc : string)
  (f f' : list (list value) -> Z) :
  reordered d d' ->
  (forall g g', Permutation g' g -> f' g' = f g) ->
  aggregate d' tc f' = aggregate d tc f.
Proof.
  intros H Hf. unfold aggregate. rewrite (group_keys_reordered d d' tc H).
  apply map_ext. intros k. f_equal. apply Hf.
  now apply group_rows_reordered.
Qed.

Lemma history_counts_reordered (d d' : DataFrame) (tc dc : string) :
  reordered d d' -> history_counts d' tc dc = history_counts d tc dc.
Proof.
  intros H. pose proof H as [Hc Hp]. unfold history_counts.
  rewrite (has_column_reordered d d' dc Hc).
  unfold groupby_nunique, groupby_size.
  destruct (has_column dc d); apply aggregate_reordered; try assumption.
  - intros g g' Hg. apply nunique_perm.
    rewrite (map_ext _ _ (fun r => cell_reordered d d' dc r Hc)).
    now apply Permutation_map.
  - intros g g' Hg. f_equal. now apply Permutation_length.
Qed.

Lemma groupby_size_reordered (d d' : DataFrame) (tc : string) :
  reordered d d' -> groupby_size d' tc = groupby_size d tc.
Proof.
  intros H. unfold groupby_size. apply aggregate_reordered; [assumption|].
  intros g g' Hg. f_equal. now apply Permutation_length.
Qed.

Lemma rows_in_reordered (d d' : DataFrame) (tc : string)
  (top : list value) :
  reordered d d' ->
  Permutation (rows (rows_in d' tc top)) (rows (rows_in d tc top)).
Proof.
  intros [Hc Hp]. simpl.
  rewrite (filter_ext _ (fun r => isin (cell d tc r) top)).
  - now apply filter_perm.
  - intros r. now rewrite (cell_reordered d d' tc r Hc).
Qed.

Lemma names_column_reordered (d d' : DataFrame) (ncc : option string) :
  columns d' = columns d ->
  (forall c, ~ names_column d ncc c) ->
  forall c, ~ names_column d' ncc c.
Proof.
  intros Hc Hno c [E [Hne Hin]]. apply (Hno c).
  rewrite Hc in Hin. now repeat split.
Qed.

(** X14. The keys do not depend on the order of the rows.  For a frame
    holding the same rows in another order, under the same labels, the
    history ranker returns the same key list, and its subset is the
    selection of the same keys from the frame it was given, in the row
    order of that frame (the whole frame for [n = -1]): the same rows as
    before, in the new order.  So does the news ranker, with the same
    totals, when it counts rows (no count column is named and there is no
    column "news_count"). *)
Theorem X14_row_order_is_irrelevant (S : sorter) (d d' : DataFrame)
  (tc dc : string) (ncc : option string) (n : Z) :
  In tc (columns d) ->
  reordered d d' ->
  (exists top,
     rank_by_history S d tc dc n
     = Ok (if n =? -1 then d else rows_in d tc top, top)
     /\ rank_by_history S d' tc dc n
        = Ok (if n =? -1 then d' else rows_in d' tc top, top)
     /\ Permutation (rows (rows_in d' tc top)) (rows (rows_in d tc top)))
  /\ ((forall c, ~ names_column d ncc c) ->
      ~ In "news_count" (columns d) ->
      exists top tot,
        rank_by_news S d tc ncc n
        = Ok (if n =? -1 then d else rows_in d tc top, top, tot)
        /\ rank_by_news S d' tc ncc n
           = Ok (if n =? -1 then d' else rows_in d' tc top, top, tot)
        /\ Permutation (rows (rows_in d' tc top))
             (rows (rows_in d tc top))).
Proof.
  intros Hc H. apply has_column_In in Hc.
  assert (Hc' : has_column tc d' = true).
  { now rewrite (has_column_reordered d d' tc (proj1 H)). }
  split.
  - exists (top_of S n (history_counts d tc dc)).
    rewrite !rank_by_history_eq, Hc, Hc'.
    rewrite (history_counts_reordered d d' tc dc H). simpl.
    unfold subset_of. repeat split. now apply rows_in_reordered.
  - intros Hno Hnc.
    assert (Ht : news_totals d tc ncc = Ok (groupby_size d tc)).
    { unfold news_totals. rewrite (no_name_falls_through d ncc Hno).
      now rewrite (not_has_column _ d Hnc). }
    assert (Ht' : news_totals d' tc ncc = Ok (groupby_size d tc)).
    { unfold news_totals.
      rewrite (no_name_falls_through d' ncc
                 (names_column_reordered d d' ncc (proj1 H) Hno)).
      rewrite (has_column_reordered d d' _ (proj1 H)).
      rewrite (not_has_column _ d Hnc).
      now rewrite (groupby_size_reordered d d' tc H). }
    destruct (rank_by_news_ok S d tc ncc n _ Hc Ht) as [tot [Hl Hr]].
    destruct (rank_by_news_ok S d' tc ncc n _ Hc' Ht') as [tot' [Hl' Hr']].
    assert (tot' = tot) by congruence. subst tot'.
    exists (top_of S n (groupby_size d tc)), tot.
    split; [exact Hr|]. split; [exact Hr'|].
    now apply rows_in_reordered.
Qed.

Lemma X14_row_order_is_irrelevant_witness :
  (exists top,
     rank_by_history stable_sorter prices "ticker" "date" 2
     = Ok (if 2 =? -1 then prices else rows_in prices "ticker" top, top)
     /\ rank_by_history stable_sorter reversed_prices "ticker" "date" 2
        = Ok (if 2 =? -1 then reversed_prices
              else rows_in reversed_prices "ticker" top, top)
     /\ Permutation (rows (rows_in reversed_prices "ticker" top))
          (rows (rows_in prices "ticker" top)))
  /\ (exists top tot,
        rank_by_news stable_sorter prices "ticker" None 2
        = Ok (if 2 =? -1 then prices else rows_in prices "ticker" top,
              top, tot)
        /\ rank_by_news stable_sorter reversed_prices "ticker" None 2
           = Ok (if 2 =? -1 then reversed_prices
                 else rows_in reversed_prices "ticker" top, top, tot)
        /\ Permutation (rows (rows_in reversed_prices "ticker" top))
             (rows (rows_in prices "ticker" top))).
Proof.
  assert (Hre : reordered prices reversed_prices).
  { split; [reflexivity|]. unfold reversed_prices. simpl rows at 1.
    symmetry. apply Permutation_rev. }
  split.
  - destruct (X14_row_order_is_irrelevant stable_sorter prices
                reversed_prices "ticker" "date" None 2) as [H _].
    + simpl. left. reflexivity.
    + exact Hre.
    + exact H.
  - destruct (X14_row_order_is_irrelevant stable_sorter prices
                reversed_prices "ticker" "date" None 2) as [_ H].
    + simpl. left. reflexivity.
    + exact Hre.
    + apply H.
      * intros c [E _]. discriminate E.
      * simpl. intros [E|[E|[]]]; discriminate E.
Defined.

(** ** X15: an [n] that covers every group, against [n = -1] *)

Lemma top_of_covers (S : sorter) (n : Z) (s : Series) :
  Z.of_nat (List.length s) <= n ->
  top_of S n s = top_of S (-1) s.
Proof.
  intros Hn. rewrite top_of_head by lia. unfold top_of. simpl.
  apply firstn_all2. unfold index_tolist. rewrite length_map.
  rewrite (Permutation_length (sort_desc_perm S s)). lia.
Qed.

Lemma series_length (s : Series) :
  List.length s = List.length (index_tolist s).
Proof. unfold index_tolist. now rewrite length_map. Qed.

(** X15. With the key column present and [n] at least the number of
    groups, either ranker returns the key list it returns for [n = -1];
    the subsets differ only in the rows whose key is missing: [n = -1]
    hands back the whole frame, [n] the rows that have a key. *)
Theorem X15_large_n_against_all (S : sorter) (d : DataFrame)
  (tc dc : string) (ncc : option string) (n : Z) :
  In tc (columns d) ->
  Z.of_nat (List.length (group_keys d tc)) <= n ->
  (exists sub top,
     rank_by_history S d tc dc n = Ok (sub, top)
     /\ rank_by_history S d tc dc (-1) = Ok (d, top)
     /\ columns sub = columns d
     /\ rows sub = keyed_rows d tc)
  /\ (forall totals, news_totals d tc ncc = Ok totals ->
      exists sub top tot,
        rank_by_news S d tc ncc n = Ok (sub, top, tot)
        /\ rank_by_news S d tc ncc (-1) = Ok (d, top, tot)
        /\ columns sub = columns d
        /\ rows sub = keyed_rows d tc).
Proof.
  intros Hc Hn. apply has_column_In in Hc.
  assert (Hne : n <> -1) by lia. split.
  - set (s := history_counts d tc dc).
    assert (Hs : Z.of_nat (List.length s) <= n).
    { rewrite series_length. subst s. now rewrite history_counts_index. }
    exists (rows_in d tc (top_of S (-1) s)), (top_of S (-1) s).
    rewrite !rank_by_history_eq, Hc. simpl. fold s.
    rewrite (top_of_covers S n s Hs).
    rewrite subset_of_rows_in by assumption.
    repeat split.
    apply rows_in_all_keys. apply history_counts_index.
  - intros totals Ht.
    assert (Hs : Z.of_nat (List.length totals) <= n).
    { rewrite series_length.
      now rewrite (news_totals_index d tc ncc totals Ht). }
    destruct (rank_by_news_ok S d tc ncc n totals Hc Ht) as [tot [Hl Hr]].
    destruct (rank_by_news_ok S d tc ncc (-1) totals Hc Ht)
      as [tot' [Hl' Hr']].
    rewrite (top_of_covers S n totals Hs) in Hl, Hr.
    assert (tot' = tot) by congruence. subst tot'.
    exists (rows_in d tc (top_of S (-1) totals)), (top_of S (-1) totals), tot.
    rewrite Hr, Hr'. rewrite subset_of_rows_in by assumption.
    repeat split.
    apply rows_in_all_keys. apply (news_totals_index d tc ncc totals Ht).
Qed.

Lemma X15_large_n_against_all_witness :
  (exists sub top,
     rank_by_history stable_sorter prices "ticker" "date" 3 = Ok (sub, top)
     /\ rank_by_history stable_sorter prices "ticker" "date" (-1)
        = Ok (prices, top)
     /\ columns sub = columns prices
     /\ rows sub = keyed_rows prices "ticker")
  /\ (exists sub top tot,
        rank_by_news stable_sorter news "ticker" None 2 = Ok (sub, top, tot)
        /\ rank_by_news stable_sorter news "ticker" None (-1)
           = Ok (news, top, tot)
        /\ columns sub = columns news
        /\ rows sub = keyed_rows news "ticker").
Proof.
  split.
  - destruct (X15_large_n_against_all stable_sorter prices "ticker" "date"
                None 3) as [H _].
    + simpl. left. reflexivity.
    + vm_compute. discriminate.
    + exact H.
  - destruct (X15_large_n_against_all stable_sorter news "ticker" "date"
                None 2) as [_ H].
    + simpl. left. reflexivity.
    + vm_compute. discriminate.
    + apply (H [(VStr "P", 10); (VStr "Q", 20)]). reflexivity.
Defined.
